(** * pygpc: sampling grids and the adaptive regression loop

    A shallow embedding of [pygpc/Grid.py] and, from [pygpc/Algorithm.py],
    of [RegAdaptive.run] and of the constructors of [Algorithm] and
    [RegAdaptive].

    Conventions of the embedding.
    - Python floats are modelled by exact rationals ([Q]); rounding is
      outside the model.
    - A Python call that may raise returns an [outcome]; code that reads
      numpy's global generator or [uuid.uuid4] threads a [world].
    - numpy arrays of shape [n x dim] are lists of rows. *)

From Stdlib Require Import String.
From Stdlib Require Import ZArith QArith Qround Qabs Qpower List Bool Lia
  Permutation Arith.
Import ListNotations.

Set Implicit Arguments.

(** ** Python effects *)

Module Py.

  (** The exception classes the embedded code constructs or triggers. *)
Inductive exc : Type :=
  | NotImplementedError
  | AttributeError (msg : string)
  | Warning (msg : string)
  | ValueError (msg : string)
  | IndexError (msg : string)
  | UnboundLocalError (name : string)
  | TypeError (msg : string)
  | ZeroDivisionError.

Inductive outcome (A : Type) : Type :=
  | Return (a : A)
  | Raise (e : exc).
Arguments Return {A} a.
Arguments Raise {A} e.

Definition bind {A B} (c : outcome A) (k : A -> outcome B) : outcome B :=
    match c with
    | Return a => k a
    | Raise e => Raise e
    end.

Definition returns {A} (c : outcome A) : Prop := exists a, c = Return a.
Definition raises {A} (c : outcome A) : Prop := exists e, c = Raise e.

Lemma returns_not_raises {A} (c : outcome A) : returns c -> ~ raises c.
  Proof. intros [a ->] [e H]. discriminate. Qed.

  (** [int(x)] on a float truncates towards zero. *)
Definition int (x : Q) : Z :=
    if Qle_bool 0 x then Qfloor x else Qceiling x.

  (** [range(n)] *)
Definition range (n : Z) : list Z := map Z.of_nat (seq 0 (Z.to_nat n)).

Lemma length_range n : length (range n) = Z.to_nat n.
  Proof. unfold range. now rewrite length_map, length_seq. Qed.

End Py.

Declare Scope py_scope.
Delimit Scope py_scope with py.
Notation "x <- c ;; k" := (Py.bind c (fun x => k))
  (at level 61, c at next level, right associativity) : py_scope.

(** ** Process-wide sources of randomness

    [np.random] is numpy's hidden global generator and [uuid.uuid4] reads
    the operating system's entropy.  Both are external; the embedding takes
    them as an interface.  A draw with [size] larger than one is the
    corresponding number of successive scalar draws, which is how numpy's
    legacy generator fills an array. *)

Class Ambient : Type := {
  rng_state : Type;
  np_random_seed : Z -> rng_state;
  np_random_beta : Q -> Q -> rng_state -> Q * rng_state;
  np_random_normal : Q -> Q -> rng_state -> Q * rng_state;
  entropy : Type;
  uuid : Type;
  uuid_uuid4 : entropy -> uuid * entropy
}.

Section World.
Context {amb : Ambient}.

  (** [issued] is the list of warnings handed to the [warnings] machinery. *)
Record world : Type := World {
    np_random : rng_state;
    os_urandom : entropy;
    issued : list string
  }.

  (** A stateful computation that may raise. *)
Definition M (A : Type) : Type := world -> Py.outcome A * world.

Definition ret {A} (a : A) : M A := fun w => (Py.Return a, w).
Definition raise {A} (e : Py.exc) : M A := fun w => (Py.Raise e, w).
Definition mbind {A B} (c : M A) (k : A -> M B) : M B :=
    fun w => match c w with
             | (Py.Return a, w') => k a w'
             | (Py.Raise e, w') => (Py.Raise e, w')
             end.

  (** [n] successive draws of one scalar sampler. *)
Fixpoint draws (n : nat) (draw1 : rng_state -> Q * rng_state) (s : rng_state)
    : list Q * rng_state :=
    match n with
    | O => ([], s)
    | S n' => let '(x, s1) := draw1 s in
              let '(xs, s2) := draws n' draw1 s1 in
              (x :: xs, s2)
    end.

  (** [[uuid.uuid4() for _ in range(n)]] *)
Fixpoint uuid4s (n : nat) (e : entropy) : list uuid * entropy :=
    match n with
    | O => ([], e)
    | S n' => let '(u, e1) := uuid_uuid4 e in
              let '(us, e2) := uuid4s n' e1 in
              (u :: us, e2)
    end.


Lemma length_uuid4s n e : length (fst (uuid4s n e)) = n.
  Proof.
    revert e. induction n as [|n IH]; intros e; simpl; [reflexivity|].
    destruct (uuid_uuid4 e) as [u e1]. specialize (IH e1).
    destruct (uuid4s n e1) as [us e2]. simpl in *. now rewrite IH.
  Qed.

End World.

Notation "x <~ c ;; k" := (mbind c (fun x => k))
  (at level 61, c at next level, right associativity) : py_scope.

(** A small deterministic instance of the interface, to run the embedding
    on concrete inputs: a linear congruential generator for numpy's
    stream and a counter for the ids. *)
Definition lcg (s : Z) : Z := ((1103515245 * s + 12345) mod 2147483648)%Z.

Definition lcg_unit (s : Z) : Q := (inject_Z (lcg s) / 2147483648)%Q.

Definition example_ambient : Ambient := {|
  rng_state := Z;
  np_random_seed := fun z => z;
  np_random_beta := fun _ _ s => (lcg_unit s, lcg s);
  np_random_normal := fun loc scale s =>
                        ((loc + scale * (2 * lcg_unit s - 1))%Q, lcg s);
  entropy := Z;
  uuid := Z;
  uuid_uuid4 := fun e => (e, (e + 1)%Z)
|}.

(** ** numpy arrays as lists *)

Module np.

(** A two-dimensional float array, as its list of rows. *)
Definition ndarray2 : Type := list (list Q).

(** [np.zeros([n, m])] for [n, m >= 0] *)
Definition zeros2 (n m : nat) : ndarray2 := repeat (repeat 0%Q m) n.

(** [a.shape[0]] *)
Definition shape0 (a : ndarray2) : Z := Z.of_nat (length a).

(** Apply [f] at position [i]; nothing happens out of range (the embedded
    loops index only inside the shape the array was created with). *)
Fixpoint upd {A} (i : nat) (f : A -> A) (l : list A) : list A :=
  match l, i with
  | [], _ => []
  | x :: l', O => f x :: l'
  | x :: l', S i' => x :: upd i' f l'
  end.

(** [a[i, j] = v] *)
Definition setitem2 (a : ndarray2) (i j : nat) (v : Q) : ndarray2 :=
  upd i (upd j (fun _ => v)) a.

(** [a[:, j] = col] for a column with one entry per row *)
Fixpoint set_column (a : ndarray2) (j : nat) (col : list Q) : ndarray2 :=
  match a, col with
  | row :: a', v :: col' => upd j (fun _ => v) row :: set_column a' j col'
  | _, _ => a
  end.

(** [np.vstack([a, b])] for two arrays over the same number of columns *)
Definition vstack (a b : ndarray2) : ndarray2 := a ++ b.

Lemma length_upd {A} i (f : A -> A) l : length (upd i f l) = length l.
Proof.
  revert i. induction l as [|x l IH]; intros [|i]; simpl; auto.
Qed.

Lemma length_set_column a j col : length (set_column a j col) = length a.
Proof.
  revert col. induction a as [|r a IH]; intros [|v col]; simpl; auto.
Qed.

Lemma length_zeros2 n m : length (zeros2 n m) = n.
Proof. apply repeat_length. Qed.

Lemma upd_app_r {A} (f : A -> A) (l1 l2 : list A) i :
  upd (length l1 + i) f (l1 ++ l2) = l1 ++ upd i f l2.
Proof. induction l1 as [|x l1 IH]; simpl; [reflexivity | now rewrite IH]. Qed.

End np.

(** ** The random inputs of a problem *)

(** Modelled from the spec: the [Problem] class ([pygpc/Problem.py]) is not
    part of the sources.  Grid.py reads [problem.dim] and, per dimension,
    [problem.pdf_type[i]], [problem.pdf_shape[i][0..1]] and
    [problem.pdf_limits[i][0..1]]; a problem is the list of these
    per-dimension attributes and [dim] its length. *)
Record RandomParameter : Type := {
  pdf_type : string;
  pdf_shape : Q * Q;
  pdf_limits : Q * Q
}.

Definition Problem : Type := list RandomParameter.

Definition dim (problem : Problem) : nat := length problem.

Definition is_beta (p : RandomParameter) : bool :=
  String.eqb (pdf_type p) "beta".

Definition is_norm (p : RandomParameter) : bool :=
  String.eqb (pdf_type p) "norm" || String.eqb (pdf_type p) "normal".

(** [problem.<attr>[i_dim]] inside [for i_dim in range(problem.dim)] *)
Definition param (problem : Problem) (i_dim : nat) : RandomParameter :=
  nth i_dim problem
    {| pdf_type := EmptyString; pdf_shape := (0, 0); pdf_limits := (0, 0) |}.

(** ** Grid.py: the [Grid] base class and [RandomGrid] *)

Module Grid.

Section WithAmbient.
Context {amb : Ambient}.

(** The attributes of a grid object; [None] is Python's [None].  [seed] is
    the attribute [RandomGrid] adds. *)
Record Grid : Type := mkGrid {
  n_grid : option Z;
  _coords : option np.ndarray2;
  _coords_norm : option np.ndarray2;
  coords_id : option (list uuid);
  _weights : option (list Q);
  seed : option Z
}.

(** [Grid.__init__] *)
Definition init : Grid :=
  {| n_grid := None; _coords := None; _coords_norm := None;
     coords_id := None; _weights := None; seed := None |}.

Definition with_n_grid (v : option Z) (g : Grid) : Grid :=
  {| n_grid := v; _coords := _coords g; _coords_norm := _coords_norm g;
     coords_id := coords_id g; _weights := _weights g; seed := seed g |}.

Definition with_coords (v : option np.ndarray2) (g : Grid) : Grid :=
  {| n_grid := n_grid g; _coords := v; _coords_norm := _coords_norm g;
     coords_id := coords_id g; _weights := _weights g; seed := seed g |}.

Definition with_coords_norm (v : option np.ndarray2) (g : Grid) : Grid :=
  {| n_grid := n_grid g; _coords := _coords g; _coords_norm := v;
     coords_id := coords_id g; _weights := _weights g; seed := seed g |}.

Definition with_coords_id (v : option (list uuid)) (g : Grid) : Grid :=
  {| n_grid := n_grid g; _coords := _coords g; _coords_norm := _coords_norm g;
     coords_id := v; _weights := _weights g; seed := seed g |}.

Definition with_weights (v : option (list Q)) (g : Grid) : Grid :=
  {| n_grid := n_grid g; _coords := _coords g; _coords_norm := _coords_norm g;
     coords_id := coords_id g; _weights := v; seed := seed g |}.

Definition with_seed (v : option Z) (g : Grid) : Grid :=
  {| n_grid := n_grid g; _coords := _coords g; _coords_norm := _coords_norm g;
     coords_id := coords_id g; _weights := _weights g; seed := v |}.

(** [[uuid.uuid4() for _ in range(n)]] as a computation *)
Definition fresh_ids (n : Z) : M (list uuid) :=
  fun w =>
    let '(ids, e) := uuid4s (Z.to_nat n) (os_urandom w) in
    (Py.Return ids,
     {| np_random := np_random w; os_urandom := e; issued := issued w |}).

(** The tail of both property setters: ids are generated only when the
    grid has none yet. *)
Definition ensure_ids (self : Grid) : M Grid :=
  match coords_id self, n_grid self with
  | None, Some n =>
      (ids <~ fresh_ids n ;; ret (with_coords_id (Some ids) self))%py
  | _, _ => ret self
  end.

(** [@coords.setter] *)
Definition set_coords (value : np.ndarray2) (self : Grid) : M Grid :=
  let self := with_coords (Some value) self in
  let self := with_n_grid (Some (np.shape0 value)) self in
  ensure_ids self.

(** [@coords_norm.setter] *)
Definition set_coords_norm (value : np.ndarray2) (self : Grid) : M Grid :=
  let self := with_coords_norm (Some value) self in
  let self := with_n_grid (Some (np.shape0 value)) self in
  ensure_ids self.

(** One row of [get_denormalized_coordinates]: column [i_dim] is mapped
    when the type is beta, or norm/normal; other columns keep the zero of
    [np.zeros(coords_norm.shape)]. *)
Definition denormalize_cell (p : RandomParameter) (x : Q) : Q :=
  let c := 0%Q in
  let c := if is_beta p
           then ((x + 1) / 2 * (snd (pdf_limits p) - fst (pdf_limits p))
                 + fst (pdf_limits p))%Q
           else c in
  let c := if is_norm p
           then (x * snd (pdf_shape p) + fst (pdf_shape p))%Q
           else c in
  c.

Fixpoint denormalize_row (problem : Problem) (row : list Q) : list Q :=
  match problem, row with
  | p :: problem', x :: row' =>
      denormalize_cell p x :: denormalize_row problem' row'
  | _, _ => []
  end.

(** [Grid.get_denormalized_coordinates], for [coords_norm] with
    [problem.dim] columns *)
Definition get_denormalized_coordinates (problem : Problem)
  (coords_norm : np.ndarray2) : np.ndarray2 :=
  map (denormalize_row problem) coords_norm.

(** *** RandomGrid *)

(** Python truthiness of the seed, as [if self.seed:] reads it. *)
Definition truthy (seed : option Z) : bool :=
  match seed with
  | Some z => negb (z =? 0)%Z
  | None => false
  end.

(** The body of the seeded double loop at [(i_grid, i_dim)]. *)
Definition seeded_cell (problem : Problem) (i_grid i_dim : nat)
  (st : np.ndarray2 * rng_state) : np.ndarray2 * rng_state :=
  let p := param problem i_dim in
  let st :=
    if is_beta p then
      let '(x, s) := np_random_beta (fst (pdf_shape p)) (snd (pdf_shape p))
                       (snd st) in
      (np.setitem2 (fst st) i_grid i_dim (x * 2 - 1)%Q, s)
    else st in
  let st :=
    if is_norm p then
      let '(x, s) := np_random_normal 0 1 (snd st) in
      (np.setitem2 (fst st) i_grid i_dim x, s)
    else st in
  st.

(** [for i_grid in range(n_grid): for i_dim in range(dim): ...] *)
Definition seeded_fill (problem : Problem) (n : nat)
  (st : np.ndarray2 * rng_state) : np.ndarray2 * rng_state :=
  fold_left
    (fun st i_grid =>
       fold_left (fun st i_dim => seeded_cell problem i_grid i_dim st)
         (seq 0 (dim problem)) st)
    (seq 0 n) st.

(** The body of the whole-block loop at [i_dim]: one draw of size
    [[n_grid, 1]] per dimension. *)
Definition block_column (problem : Problem) (n : nat) (i_dim : nat)
  (st : np.ndarray2 * rng_state) : np.ndarray2 * rng_state :=
  let p := param problem i_dim in
  let st :=
    if is_beta p then
      let '(xs, s) := draws n (np_random_beta (fst (pdf_shape p))
                                 (snd (pdf_shape p))) (snd st) in
      (np.set_column (fst st) i_dim (map (fun x => x * 2 - 1)%Q xs), s)
    else st in
  let st :=
    if is_norm p then
      let '(xs, s) := draws n (np_random_normal 0 1) (snd st) in
      (np.set_column (fst st) i_dim xs, s)
    else st in
  st.

(** [for i_dim in range(dim): ...] of the unseeded branch *)
Definition block_fill (problem : Problem) (n : nat)
  (st : np.ndarray2 * rng_state) : np.ndarray2 * rng_state :=
  fold_left (fun st i_dim => block_column problem n i_dim st)
    (seq 0 (dim problem)) st.

(** The integers [np.random.seed] takes: those of 32 bits. *)
Definition seed_in_range (z : Z) : bool :=
  (0 <=? z)%Z && (z <=? 4294967295)%Z.

(** [if self.seed: np.random.seed(self.seed)]; numpy refuses an integer
    outside of 32 bits. *)
Definition maybe_seed (seed : option Z) : M unit :=
  fun w =>
    match seed with
    | Some z =>
        if truthy seed
        then
          if seed_in_range z
          then (Py.Return tt,
                {| np_random := np_random_seed z; os_urandom := os_urandom w;
                   issued := issued w |})
          else (Py.Raise (Py.ValueError "Seed must be between 0 and 2**32 - 1"),
                w)
        else (Py.Return tt, w)
    | None => (Py.Return tt, w)
    end.

(** A seed with which [np.random.seed] does not raise: [None], or an
    integer of 32 bits (zero is not passed on at all). *)
Definition seed_accepted (seed : option Z) : bool :=
  match seed with
  | Some z => seed_in_range z
  | None => true
  end.

(** The sampling branch of the constructor on the zero array. *)
Definition sample (problem : Problem) (seed : option Z) (n : nat)
  (a : np.ndarray2) : M np.ndarray2 :=
  fun w =>
    let '(a', s) :=
      if truthy seed
      then seeded_fill problem n (a, np_random w)
      else block_fill problem n (a, np_random w) in
    (Py.Return a',
     {| np_random := s; os_urandom := os_urandom w; issued := issued w |}).

(** [RandomGrid.__init__(problem, {"n_grid": n_grid, "seed": seed})].
    The coordinate array is filled in place after [coords_norm] has been
    assigned, so the object holds the filled array. *)
Definition RandomGrid (problem : Problem) (n_grid_param : Q)
  (seed_param : option Z) : M Grid :=
  (let self := init in
   let n := Py.int n_grid_param in
   let self := with_n_grid (Some n) self in
   let self := with_seed seed_param self in
   if (n <? 0)%Z then raise (Py.ValueError "negative dimensions are not allowed")
   else
   self <~ set_coords_norm (np.zeros2 (Z.to_nat n) (dim problem)) self ;;
   _ <~ maybe_seed seed_param ;;
   a <~ sample problem seed_param (Z.to_nat n)
          (np.zeros2 (Z.to_nat n) (dim problem)) ;;
   let self := with_coords_norm (Some a) self in
   self <~ set_coords (get_denormalized_coordinates problem a) self ;;
   ids <~ fresh_ids n ;;
   ret (with_coords_id (Some ids) self))%py.

(** Reading an attribute that must not be [None]. *)
Definition the {A} (name : string) (v : option A) : M A :=
  match v with
  | Some a => ret a
  | None => raise (Py.TypeError name)
  end.

(** [RandomGrid.extend_random_grid(n_grid_new, seed=None)] *)
Definition extend_random_grid (problem : Problem) (self : Grid)
  (n_grid_new : Q) (seed_arg : option Z) : M Grid :=
  (n_old <~ the "n_grid" (n_grid self) ;;
   let n_grid_add := Py.int (n_grid_new - inject_Z n_old) in
   if (n_grid_add >? 0)%Z then
     new_grid <~ RandomGrid problem (inject_Z n_grid_add) seed_arg ;;
     c <~ the "coords" (_coords self) ;;
     c' <~ the "coords" (_coords new_grid) ;;
     self <~ set_coords (np.vstack c c') self ;;
     cn <~ the "coords_norm" (_coords_norm self) ;;
     cn' <~ the "coords_norm" (_coords_norm new_grid) ;;
     self <~ set_coords_norm (np.vstack cn cn') self ;;
     ids <~ the "coords_id" (coords_id self) ;;
     ids' <~ fresh_ids n_grid_add ;;
     let self := with_coords_id (Some (ids ++ ids')) self in
     c <~ the "coords" (_coords self) ;;
     ret (with_n_grid (Some (np.shape0 c)) self)
   else
     let _ := Py.Warning "No samples added to grid ... (n_grid_new < n_grid)" in
     ret self)%py.

(** *** Facts about the two sampling loops *)

Lemma int_inject_Z (z : Z) : Py.int (inject_Z z) = z.
Proof.
  unfold Py.int. destruct (Qle_bool 0 (inject_Z z)).
  - apply Qfloor_Z.
  - apply Qceiling_Z.
Qed.

(** The seeded loop body on the row it addresses. *)
Definition cell_row (p : RandomParameter) (i_dim : nat)
  (st : list Q * rng_state) : list Q * rng_state :=
  let st :=
    if is_beta p then
      let '(x, s) := np_random_beta (fst (pdf_shape p)) (snd (pdf_shape p))
                       (snd st) in
      (np.upd i_dim (fun _ => (x * 2 - 1)%Q) (fst st), s)
    else st in
  let st :=
    if is_norm p then
      let '(x, s) := np_random_normal 0 1 (snd st) in
      (np.upd i_dim (fun _ => x) (fst st), s)
    else st in
  st.

(** One grid point: the inner loop over the dimensions. *)
Definition row_gen (problem : Problem) (dims : list nat)
  (st : list Q * rng_state) : list Q * rng_state :=
  fold_left (fun st i_dim => cell_row (param problem i_dim) i_dim st) dims st.

(** The points in generation order, the generator threaded through. *)
Fixpoint gen_rows (problem : Problem) (rows : np.ndarray2) (s : rng_state)
  : np.ndarray2 * rng_state :=
  match rows with
  | [] => ([], s)
  | r :: rows' =>
      let '(r', s1) := row_gen problem (seq 0 (dim problem)) (r, s) in
      let '(rs', s2) := gen_rows problem rows' s1 in
      (r' :: rs', s2)
  end.

Lemma seeded_cell_row problem a1 r a2 s i_dim :
  seeded_cell problem (length a1) i_dim (a1 ++ r :: a2, s) =
  (a1 ++ fst (cell_row (param problem i_dim) i_dim (r, s)) :: a2,
   snd (cell_row (param problem i_dim) i_dim (r, s))).
Proof.
  unfold seeded_cell, cell_row, np.setitem2. simpl fst. simpl snd.
  assert (U : forall (f : list Q -> list Q) r0,
             np.upd (length a1) f (a1 ++ r0 :: a2) = a1 ++ f r0 :: a2).
  { intros f r0. rewrite <- (Nat.add_0_r (length a1)).
    now rewrite np.upd_app_r. }
  destruct (is_beta (param problem i_dim)).
  - destruct (np_random_beta _ _ s) as [x s1]. simpl fst. simpl snd.
    rewrite U.
    destruct (is_norm (param problem i_dim)).
    + destruct (np_random_normal _ _ s1) as [y s2]. cbn [fst snd]. now rewrite U.
    + reflexivity.
  - cbn [fst snd]. destruct (is_norm (param problem i_dim)).
    + destruct (np_random_normal _ _ s) as [y s2]. cbn [fst snd]. now rewrite U.
    + reflexivity.
Qed.

Lemma seeded_inner_row problem dims a1 r a2 s :
  fold_left (fun st i_dim => seeded_cell problem (length a1) i_dim st) dims
    (a1 ++ r :: a2, s) =
  (a1 ++ fst (row_gen problem dims (r, s)) :: a2,
   snd (row_gen problem dims (r, s))).
Proof.
  revert r s. induction dims as [|d dims IH]; intros r s.
  - reflexivity.
  - cbn [fold_left]. rewrite seeded_cell_row.
    change (row_gen problem (d :: dims) (r, s))
      with (row_gen problem dims (cell_row (param problem d) d (r, s))).
    destruct (cell_row (param problem d) d (r, s)) as [r1 s1].
    cbn [fst snd]. apply IH.
Qed.

Lemma seeded_outer_rows problem mid : forall pre post s,
  fold_left
    (fun st i_grid =>
       fold_left (fun st i_dim => seeded_cell problem i_grid i_dim st)
         (seq 0 (dim problem)) st)
    (seq (length pre) (length mid)) (pre ++ mid ++ post, s) =
  (pre ++ fst (gen_rows problem mid s) ++ post, snd (gen_rows problem mid s)).
Proof.
  induction mid as [|r mid IH]; intros pre post s.
  - reflexivity.
  - cbn [length seq fold_left app]. rewrite seeded_inner_row.
    cbn [gen_rows].
    destruct (row_gen problem (seq 0 (dim problem)) (r, s)) as [r1 s1].
    simpl fst. simpl snd.
    specialize (IH (pre ++ [r1]) post s1).
    rewrite length_app, Nat.add_1_r in IH. rewrite <- !app_assoc in IH.
    simpl in IH. rewrite IH.
    destruct (gen_rows problem mid s1) as [rs s2]. reflexivity.
Qed.

Lemma seeded_fill_rows problem n m s :
  seeded_fill problem n (np.zeros2 n m, s) = gen_rows problem (np.zeros2 n m) s.
Proof.
  unfold seeded_fill.
  pose proof (seeded_outer_rows problem (np.zeros2 n m) [] [] s) as H.
  cbn [length app] in H. rewrite np.length_zeros2, !app_nil_r in H.
  rewrite <- surjective_pairing in H. exact H.
Qed.


Lemma length_gen_rows problem rows s :
  length (fst (gen_rows problem rows s)) = length rows.
Proof.
  revert s. induction rows as [|r rows IH]; intros s; simpl; [reflexivity|].
  destruct (row_gen problem (seq 0 (dim problem)) (r, s)) as [r1 s1].
  specialize (IH s1). destruct (gen_rows problem rows s1). simpl in *.
  now rewrite IH.
Qed.

Lemma length_block_column problem n i_dim st :
  length (fst (block_column problem n i_dim st)) = length (fst st).
Proof.
  unfold block_column. destruct st as [a s].
  destruct (is_beta (param problem i_dim)); cbn [fst snd].
  - destruct (draws n (np_random_beta _ _) s) as [xs s1]. cbn [fst snd].
    destruct (is_norm (param problem i_dim)); cbn [fst snd].
    + destruct (draws n (np_random_normal _ _) s1) as [ys s2]. cbn [fst snd].
      now rewrite !np.length_set_column.
    + now rewrite np.length_set_column.
  - destruct (is_norm (param problem i_dim)); cbn [fst snd].
    + destruct (draws n (np_random_normal _ _) s) as [ys s2]. cbn [fst snd].
      now rewrite np.length_set_column.
    + reflexivity.
Qed.

Lemma length_block_fill problem n st :
  length (fst (block_fill problem n st)) = length (fst st).
Proof.
  unfold block_fill. generalize (seq 0 (dim problem)) as dims.
  intros dims. revert st. induction dims as [|d dims IH]; intros st; simpl.
  - reflexivity.
  - rewrite IH. apply length_block_column.
Qed.

(** The coordinate array a constructor call computes, given the state of
    numpy's generator when it is called. *)
Definition sampled (problem : Problem) (seed : option Z) (n : nat)
  (s0 : rng_state) : np.ndarray2 * rng_state :=
  if truthy seed
  then seeded_fill problem n
         (np.zeros2 n (dim problem),
          match seed with Some z => np_random_seed z | None => s0 end)
  else block_fill problem n (np.zeros2 n (dim problem), s0).

Lemma length_sampled problem seed n s0 :
  length (fst (sampled problem seed n s0)) = n.
Proof.
  unfold sampled. destruct (truthy seed).
  - rewrite seeded_fill_rows, length_gen_rows. apply np.length_zeros2.
  - rewrite length_block_fill. apply np.length_zeros2.
Qed.

Lemma mbind_return {A B} (c : M A) (k : A -> M B) w a w' :
  c w = (Py.Return a, w') -> mbind c k w = k a w'.
Proof. unfold mbind. now intros ->. Qed.

Lemma mbind_raise {A B} (c : M A) (k : A -> M B) w e w' :
  c w = (Py.Raise e, w') -> mbind c k w = (Py.Raise e, w').
Proof. unfold mbind. now intros ->. Qed.

Lemma fresh_ids_run n w :
  fresh_ids n w =
  (Py.Return (fst (uuid4s (Z.to_nat n) (os_urandom w))),
   {| np_random := np_random w;
      os_urandom := snd (uuid4s (Z.to_nat n) (os_urandom w));
      issued := issued w |}).
Proof. unfold fresh_ids. now destruct (uuid4s (Z.to_nat n) (os_urandom w)). Qed.

Lemma ensure_ids_none self n w :
  coords_id self = None -> n_grid self = Some n ->
  ensure_ids self w =
  (Py.Return (with_coords_id
                (Some (fst (uuid4s (Z.to_nat n) (os_urandom w)))) self),
   {| np_random := np_random w;
      os_urandom := snd (uuid4s (Z.to_nat n) (os_urandom w));
      issued := issued w |}).
Proof.
  intros H1 H2. unfold ensure_ids. rewrite H1, H2.
  erewrite mbind_return by apply fresh_ids_run. reflexivity.
Qed.

Lemma ensure_ids_some self ids w :
  coords_id self = Some ids -> ensure_ids self w = (Py.Return self, w).
Proof. intros H. unfold ensure_ids. now rewrite H. Qed.

Lemma maybe_seed_run seed_param w :
  seed_accepted seed_param = true ->
  maybe_seed seed_param w =
  (Py.Return tt,
   {| np_random := if truthy seed_param
                   then match seed_param with
                        | Some z => np_random_seed z
                        | None => np_random w
                        end
                   else np_random w;
      os_urandom := os_urandom w; issued := issued w |}).
Proof.
  intros Hs. unfold maybe_seed.
  destruct seed_param as [z|]; [|now destruct w].
  cbn [seed_accepted] in Hs. rewrite Hs.
  destruct (truthy (Some z)); [reflexivity | now destruct w].
Qed.

Lemma maybe_seed_refused z w :
  z <> 0%Z -> seed_in_range z = false ->
  maybe_seed (Some z) w =
  (Py.Raise (Py.ValueError "Seed must be between 0 and 2**32 - 1"), w).
Proof.
  intros Hz Hr. unfold maybe_seed, truthy.
  destruct (Z.eqb_spec z 0) as [E|_]; [contradiction|].
  cbn [negb]. now rewrite Hr.
Qed.

Lemma sample_run problem seed_param n w :
  sample problem seed_param n (np.zeros2 n (dim problem))
    {| np_random := if truthy seed_param
                    then match seed_param with
                         | Some z => np_random_seed z
                         | None => np_random w
                         end
                    else np_random w;
       os_urandom := os_urandom w; issued := issued w |} =
  (Py.Return (fst (sampled problem seed_param n (np_random w))),
   {| np_random := snd (sampled problem seed_param n (np_random w));
      os_urandom := os_urandom w; issued := issued w |}).
Proof.
  unfold sample, sampled. cbn [np_random os_urandom issued].
  destruct (truthy seed_param).
  - destruct (seeded_fill _ _ _). reflexivity.
  - destruct (block_fill _ _ _). reflexivity.
Qed.

(** The ids of a constructed grid: the [coords_norm] setter draws a first
    batch, which the last statement of the constructor replaces. *)
Definition constructor_ids (n : Z) (e : entropy) : list uuid * entropy :=
  uuid4s (Z.to_nat n) (snd (uuid4s (Z.to_nat n) e)).

(** What the constructor returns for a non-negative size. *)
Lemma RandomGrid_run problem (n : Z) seed_param w :
  (0 <= n)%Z -> seed_accepted seed_param = true ->
  RandomGrid problem (inject_Z n) seed_param w =
  (Py.Return
     {| n_grid := Some n;
        _coords := Some (get_denormalized_coordinates problem
                           (fst (sampled problem seed_param (Z.to_nat n)
                                   (np_random w))));
        _coords_norm := Some (fst (sampled problem seed_param (Z.to_nat n)
                                     (np_random w)));
        coords_id := Some (fst (constructor_ids n (os_urandom w)));
        _weights := None;
        seed := seed_param |},
   {| np_random := snd (sampled problem seed_param (Z.to_nat n) (np_random w));
      os_urandom := snd (constructor_ids n (os_urandom w));
      issued := issued w |}).
Proof.
  intros Hn Hs. unfold RandomGrid. rewrite int_inject_Z.
  destruct (Z.ltb_spec n 0) as [Hlt|_]; [lia|].
  unfold set_coords_norm, set_coords.
  erewrite mbind_return by (eapply ensure_ids_none; reflexivity).
  erewrite mbind_return by (apply maybe_seed_run; exact Hs).
  cbn [np_random os_urandom issued].
  pose (w1 := {| np_random := np_random w;
                 os_urandom :=
                   snd (uuid4s (Z.to_nat (np.shape0
                                            (np.zeros2 (Z.to_nat n) (dim problem))))
                          (os_urandom w));
                 issued := issued w |}).
  erewrite mbind_return
    by exact (sample_run problem seed_param (Z.to_nat n) w1).
  erewrite mbind_return by (eapply ensure_ids_some; reflexivity).
  erewrite mbind_return by apply fresh_ids_run.
  cbn [np_random os_urandom issued w1].
  cbv [ret with_coords_id with_n_grid with_coords with_coords_norm
       with_seed init np.shape0 get_denormalized_coordinates constructor_ids
       n_grid _coords _coords_norm coords_id _weights seed].
  rewrite length_map, length_sampled, np.length_zeros2, !Z2Nat.id by lia.
  reflexivity.
Qed.


(** A seed that is passed on and that numpy refuses: the constructor
    raises after the [coords_norm] setter has drawn its ids. *)
Lemma RandomGrid_refused problem (n z : Z) w :
  (0 <= n)%Z -> z <> 0%Z -> seed_in_range z = false ->
  RandomGrid problem (inject_Z n) (Some z) w =
  (Py.Raise (Py.ValueError "Seed must be between 0 and 2**32 - 1"),
   {| np_random := np_random w;
      os_urandom := snd (uuid4s (Z.to_nat n) (os_urandom w));
      issued := issued w |}).
Proof.
  intros Hn Hz Hr. unfold RandomGrid. rewrite int_inject_Z.
  destruct (Z.ltb_spec n 0) as [Hlt|_]; [lia|].
  unfold set_coords_norm.
  erewrite mbind_return by (eapply ensure_ids_none; reflexivity).
  erewrite mbind_raise by (apply maybe_seed_refused; assumption).
  cbv [with_n_grid with_coords_norm with_seed init np.shape0 n_grid].
  now rewrite np.length_zeros2, Z2Nat.id by lia.
Qed.

Lemma RandomGrid_returns problem (n : Z) seed_param w :
  (0 <= n)%Z -> seed_accepted seed_param = true ->
  exists ids e,
    length ids = Z.to_nat n /\
    RandomGrid problem (inject_Z n) seed_param w =
    (Py.Return
       {| n_grid := Some n;
          _coords := Some (get_denormalized_coordinates problem
                             (fst (sampled problem seed_param (Z.to_nat n)
                                     (np_random w))));
          _coords_norm := Some (fst (sampled problem seed_param (Z.to_nat n)
                                       (np_random w)));
          coords_id := Some ids;
          _weights := None;
          seed := seed_param |},
     {| np_random := snd (sampled problem seed_param (Z.to_nat n) (np_random w));
        os_urandom := e;
        issued := issued w |}).
Proof.
  intros Hn Hs. eexists _, _. split; [|now apply RandomGrid_run].
  unfold constructor_ids. apply length_uuid4s.
Qed.

(** *** extend_random_grid *)

(** A grid of [n] points: [n_grid] and the three parallel arrays agree. *)
Record sized (g : Grid) (n : nat) (c cn : np.ndarray2) (ids : list uuid)
  : Prop := {
  sized_n_grid : n_grid g = Some (Z.of_nat n);
  sized_coords : _coords g = Some c;
  sized_coords_norm : _coords_norm g = Some cn;
  sized_coords_id : coords_id g = Some ids;
  sized_len_coords : length c = n;
  sized_len_coords_norm : length cn = n;
  sized_len_coords_id : length ids = n
}.

Lemma int_nonpositive (x : Q) : (x <= 0)%Q -> (Py.int x <= 0)%Z.
Proof.
  intros Hx. unfold Py.int. destruct (Qle_bool 0 x) eqn:E.
  - apply Qle_bool_iff in E.
    assert (H0 : (x == 0)%Q) by (apply Qle_antisym; assumption).
    rewrite H0. reflexivity.
  - change 0%Z with (Qceiling 0). now apply Qceiling_resp_le.
Qed.


(** The number of points a call adds to a grid of [n] points:
    [n_grid_add = int(n_grid_new - self.n_grid)], when it is positive. *)
Definition added_points (n_grid_new : Q) (n : nat) : nat :=
  Z.to_nat (Py.int (n_grid_new - inject_Z (Z.of_nat n))).

(** The growing branch of [extend_random_grid]. *)
Lemma extend_grows problem self n c cn ids
  (n_grid_new : Q) seed_arg w :
  sized self n c cn ids ->
  (0 < Py.int (n_grid_new - inject_Z (Z.of_nat n)))%Z ->
  seed_accepted seed_arg = true ->
  exists self' w' c' cn' ids',
    extend_random_grid problem self n_grid_new seed_arg w
      = (Py.Return self', w') /\
    sized self' (n + added_points n_grid_new n)
      (c ++ c') (cn ++ cn') (ids ++ ids') /\
    length c' = added_points n_grid_new n /\
    length cn' = added_points n_grid_new n /\
    length ids' = added_points n_grid_new n /\
    cn' = fst (sampled problem seed_arg (added_points n_grid_new n)
                 (np_random w)) /\
    c' = get_denormalized_coordinates problem cn'.
Proof.
  intros [Hn Hc Hcn Hids Lc Lcn Lids] Hpos Hseed.
  unfold added_points.
  set (a := Py.int (n_grid_new - inject_Z (Z.of_nat n))) in *.
  destruct (@RandomGrid_returns problem a seed_arg w)
    as (ids0 & e0 & L0 & R0); [lia | exact Hseed |].
  unfold extend_random_grid. rewrite Hn. unfold the at 1.
  erewrite mbind_return by reflexivity.
  fold a.
  destruct (Z.gtb_spec a 0) as [_|Hle]; [|lia].
  erewrite mbind_return by exact R0.
  rewrite Hc. cbn [_coords _coords_norm coords_id the].
  erewrite mbind_return by reflexivity.
  erewrite mbind_return by reflexivity.
  unfold set_coords, set_coords_norm.
  erewrite mbind_return
    by (eapply ensure_ids_some; cbn [with_n_grid with_coords coords_id];
        exact Hids).
  cbn [with_n_grid with_coords _coords_norm]. rewrite Hcn. cbn [the].
  erewrite mbind_return by reflexivity.
  erewrite mbind_return by reflexivity.
  erewrite mbind_return
    by (eapply ensure_ids_some;
        cbn [with_n_grid with_coords with_coords_norm coords_id]; exact Hids).
  cbn [with_n_grid with_coords with_coords_norm coords_id]. rewrite Hids.
  cbn [the]. erewrite mbind_return by reflexivity.
  erewrite mbind_return by apply fresh_ids_run.
  cbn [with_n_grid with_coords with_coords_norm with_coords_id _coords the].
  erewrite mbind_return by reflexivity.
  unfold ret.
  eexists _, _, _, _, _. split; [reflexivity|].
  assert (Ls : forall s0, length (fst (sampled problem seed_arg
                                         (Z.to_nat a) s0))
                          = Z.to_nat a)
    by (intros; apply length_sampled).
  split; [|repeat split].
  - constructor; cbn [with_n_grid with_coords with_coords_norm with_coords_id
                      n_grid _coords _coords_norm coords_id].
    + unfold np.shape0, np.vstack, get_denormalized_coordinates.
      rewrite length_app, length_map, Ls, Lc. f_equal.
    + reflexivity.
    + reflexivity.
    + reflexivity.
    + unfold np.vstack, get_denormalized_coordinates.
      now rewrite length_app, length_map, Ls, Lc.
    + unfold np.vstack. now rewrite length_app, Ls, Lcn.
    + now rewrite length_app, length_uuid4s, Lids.
  - unfold get_denormalized_coordinates. now rewrite length_map, Ls.
  - apply Ls.
  - now rewrite length_uuid4s.
Qed.

(** The growing branch for a target that is an integer, as the loops of
    [Algorithm.py] pass it. *)
Lemma extend_random_grid_sized problem self n c cn ids (target : Z) w :
  sized self n c cn ids -> (target > Z.of_nat n)%Z ->
  exists self' w' c' cn' ids',
    extend_random_grid problem self (inject_Z target) None w
      = (Py.Return self', w') /\
    sized self' (Z.to_nat target) (c ++ c') (cn ++ cn') (ids ++ ids').
Proof.
  intros Hs Hgt.
  assert (Hadd : Py.int (inject_Z target - inject_Z (Z.of_nat n))
                 = (target - Z.of_nat n)%Z).
  { rewrite <- (int_inject_Z (target - Z.of_nat n)).
    f_equal. unfold Zminus. rewrite inject_Z_plus, inject_Z_opp. reflexivity. }
  destruct (@extend_grows problem self n c cn ids (inject_Z target) None w Hs)
    as (self' & w' & c' & cn' & ids' & Hrun & Hsz & _);
    [rewrite Hadd; lia | reflexivity |].
  exists self', w', c', cn', ids'. split; [exact Hrun|].
  unfold added_points in Hsz. rewrite Hadd in Hsz.
  replace (Z.to_nat target) with (n + Z.to_nat (target - Z.of_nat n))%nat
    by lia.
  exact Hsz.
Qed.




(** The other branch of [extend_random_grid]. *)
Lemma extend_same problem self (n : Z) (n_grid_new : Q)
  seed_arg w :
  n_grid self = Some n ->
  (n_grid_new <= inject_Z n)%Q ->
  extend_random_grid problem self n_grid_new seed_arg w = (Py.Return self, w).
Proof.
  intros Hn Hle. unfold extend_random_grid. rewrite Hn. cbn [the].
  erewrite mbind_return by reflexivity.
  assert (H : (Py.int (n_grid_new - inject_Z n) <= 0)%Z).
  { apply int_nonpositive. apply Qle_minus_iff in Hle.
    apply Qle_minus_iff. rewrite Qplus_0_l.
    setoid_replace (- (n_grid_new - inject_Z n))%Q
      with (inject_Z n + - n_grid_new)%Q by ring.
    exact Hle. }
  destruct (Z.gtb_spec (Py.int (n_grid_new - inject_Z n)) 0); [lia|].
  reflexivity.
Qed.

(** C5. For a target size at or below the current size the method returns
    the grid it was given and leaves the world as it was: nothing is
    mutated and nothing is raised, and no warning is issued either (the
    [Warning] object the else branch builds is dropped). *)
Theorem extend_random_grid_no_growth problem self (n : Z) (n_grid_new : Q)
  seed_arg w :
  n_grid self = Some n ->
  (n_grid_new <= inject_Z n)%Q ->
  extend_random_grid problem self n_grid_new seed_arg w = (Py.Return self, w).
Proof. apply extend_same. Qed.

(** *** Seeded and unseeded construction *)

Lemma beta_not_norm p : is_beta p = true -> is_norm p = false.
Proof.
  unfold is_beta, is_norm. intros H. apply String.eqb_eq in H.
  rewrite H. reflexivity.
Qed.














End WithAmbient.

(** *** Concrete runs *)

Definition beta_unit : RandomParameter :=
  {| pdf_type := "beta"; pdf_shape := (2, 3); pdf_limits := (0, 1) |}.

Definition normal_std : RandomParameter :=
  {| pdf_type := "norm"; pdf_shape := (0, 1); pdf_limits := (0, 0) |}.

Definition example_world : world (amb := example_ambient) :=
  @World example_ambient 42%Z 0%Z [].

(** The grid [RandomGrid(problem, {"n_grid": 2, "seed": 7})] of a problem
    with one beta and one normal input. *)
Definition example_grid : Grid (amb := example_ambient) :=
  match fst (RandomGrid [beta_unit; normal_std] 2 (Some 7%Z) example_world) with
  | Py.Return g => g
  | Py.Raise _ => init
  end.



Lemma extend_random_grid_no_growth_witness :
  extend_random_grid (amb := example_ambient) [beta_unit; normal_std]
    example_grid 2 None example_world = (Py.Return example_grid, example_world)
  /\
  extend_random_grid (amb := example_ambient) [beta_unit; normal_std]
    example_grid 1 (Some 7%Z) example_world
    = (Py.Return example_grid, example_world).
Proof.
  split.
  - apply (@extend_random_grid_no_growth example_ambient
             [beta_unit; normal_std] example_grid 2%Z 2%Q None example_world).
    + vm_compute; reflexivity.
    + discriminate.
  - apply (@extend_random_grid_no_growth example_ambient
             [beta_unit; normal_std] example_grid 2%Z 1%Q (Some 7%Z)
             example_world).
    + vm_compute; reflexivity.
    + discriminate.
Defined.


(** A seed numpy refuses: the constructor raises. *)
Lemma RandomGrid_negative_seed :
  fst (RandomGrid (amb := example_ambient) [beta_unit; normal_std] 2
         (Some (-1)%Z) example_world)
  = Py.Raise (Py.ValueError "Seed must be between 0 and 2**32 - 1").
Proof.
  exact (f_equal fst
           (@RandomGrid_refused example_ambient [beta_unit; normal_std]
              2%Z (-1)%Z example_world ltac:(lia) ltac:(discriminate)
              eq_refl)).
Qed.

(** The coordinates a run of the constructor returns. *)
Definition returned_coords_norm {amb : Ambient}
  (r : Py.outcome Grid * world) : option np.ndarray2 :=
  match fst r with
  | Py.Return g => _coords_norm g
  | Py.Raise _ => None
  end.



(** Two constructions in a row with seed 0 give different points; with
    seed 7 they give the same. *)
Lemma seed_zero_not_reproducible :
  forall sd,
    let r1 := RandomGrid (amb := example_ambient) [beta_unit] 2 sd example_world in
    let r2 := RandomGrid (amb := example_ambient) [beta_unit] 2 sd (snd r1) in
    (sd = Some 0%Z -> returned_coords_norm r1 <> returned_coords_norm r2) /\
    (sd = Some 7%Z -> returned_coords_norm r1 = returned_coords_norm r2).
Proof.
  intros sd r1 r2. subst r1 r2.
  split; intros ->; vm_compute; [discriminate|reflexivity].
Qed.

(** ** Grid.py: the one-dimensional quadrature rules *)

(** What a rule returns for knots or weights: most branches return an
    array, the [n == 1] branches of Clenshaw-Curtis and Patterson a bare
    number. *)
Inductive value : Type :=
| Scalar (x : Q)
| Array (xs : list Q).

Definition item (i : nat) (v : Q) : nat * Q := (i, v).

(** [a[i] = v] for each item in turn *)
Definition assign (a : list Q) (items : list (nat * Q)) : list Q :=
  fold_left (fun a iv => np.upd (fst iv) (fun _ => snd iv) a) items a.

(** [np.zeros(n)] *)
Definition zeros1 (n : Z) : Py.outcome (list Q) :=
  if (n <? 0)%Z
  then Py.Raise (Py.ValueError "negative dimensions are not allowed")
  else Py.Return (repeat 0%Q (Z.to_nat n)).

(** [np.sum] *)
Definition sum (l : list Q) : Q := fold_right Qplus 0%Q l.

(** The assignments [x[i] = ...] of the branch [n == 3]. *)
Definition patterson_x_3 : list (nat * Q) :=
  [ item 0 (-0.77459666924148337704);
    item 1 0.0;
    item 2 0.77459666924148337704 ].

(** The assignments [w[i] = ...] of the branch [n == 3]. *)
Definition patterson_w_3 : list (nat * Q) :=
  [ item 0 0.555555555555555555556;
    item 1 0.888888888888888888889;
    item 2 0.555555555555555555556 ].

(** The assignments [x[i] = ...] of the branch [n == 7]. *)
Definition patterson_x_7 : list (nat * Q) :=
  [ item 0 (-0.96049126870802028342);
    item 1 (-0.77459666924148337704);
    item 2 (-0.43424374934680255800);
    item 3 0.0;
    item 4 0.43424374934680255800;
    item 5 0.77459666924148337704;
    item 6 0.96049126870802028342 ].

(** The assignments [w[i] = ...] of the branch [n == 7]. *)
Definition patterson_w_7 : list (nat * Q) :=
  [ item 0 0.104656226026467265194;
    item 1 0.268488089868333440729;
    item 2 0.401397414775962222905;
    item 3 0.450916538658474142345;
    item 4 0.401397414775962222905;
    item 5 0.268488089868333440729;
    item 6 0.104656226026467265194 ].

(** The assignments [x[i] = ...] of the branch [n == 15]. *)
Definition patterson_x_15 : list (nat * Q) :=
  [ item 0 (-0.99383196321275502221);
    item 1 (-0.96049126870802028342);
    item 2 (-0.88845923287225699889);
    item 3 (-0.77459666924148337704);
    item 4 (-0.62110294673722640294);
    item 5 (-0.43424374934680255800);
    item 6 (-0.22338668642896688163);
    item 7 0.0;
    item 8 0.22338668642896688163;
    item 9 0.43424374934680255800;
    item 10 0.62110294673722640294;
    item 11 0.77459666924148337704;
    item 12 0.88845923287225699889;
    item 13 0.96049126870802028342;
    item 14 0.99383196321275502221 ].

(** The assignments [w[i] = ...] of the branch [n == 15]. *)
Definition patterson_w_15 : list (nat * Q) :=
  [ item 0 0.0170017196299402603390;
    item 1 0.0516032829970797396969;
    item 2 0.0929271953151245376859;
    item 3 0.134415255243784220360;
    item 4 0.171511909136391380787;
    item 5 0.200628529376989021034;
    item 6 0.219156858401587496404;
    item 7 0.225510499798206687386;
    item 8 0.219156858401587496404;
    item 9 0.200628529376989021034;
    item 10 0.171511909136391380787;
    item 11 0.134415255243784220360;
    item 12 0.0929271953151245376859;
    item 13 0.0516032829970797396969;
    item 14 0.0170017196299402603390 ].

(** The assignments [x[i] = ...] of the branch [n == 31]. *)
Definition patterson_x_31 : list (nat * Q) :=
  [ item 0 (-0.99909812496766759766);
    item 1 (-0.99383196321275502221);
    item 2 (-0.98153114955374010687);
    item 3 (-0.96049126870802028342);
    item 4 (-0.92965485742974005667);
    item 5 (-0.88845923287225699889);
    item 6 (-0.83672593816886873550);
    item 7 (-0.77459666924148337704);
    item 8 (-0.70249620649152707861);
    item 9 (-0.62110294673722640294);
    item 10 (-0.53131974364437562397);
    item 11 (-0.43424374934680255800);
    item 12 (-0.33113539325797683309);
    item 13 (-0.22338668642896688163);
    item 14 (-0.11248894313318662575);
    item 15 0.0;
    item 16 0.11248894313318662575;
    item 17 0.22338668642896688163;
    item 18 0.33113539325797683309;
    item 19 0.43424374934680255800;
    item 20 0.53131974364437562397;
    item 21 0.62110294673722640294;
    item 22 0.70249620649152707861;
    item 23 0.77459666924148337704;
    item 24 0.83672593816886873550;
    item 25 0.88845923287225699889;
    item 26 0.92965485742974005667;
    item 27 0.96049126870802028342;
    item 28 0.98153114955374010687;
    item 29 0.99383196321275502221;
    item 30 0.99909812496766759766 ].

(** The assignments [w[i] = ...] of the branch [n == 31]. *)
Definition patterson_w_31 : list (nat * Q) :=
  [ item 0 0.00254478079156187441540;
    item 1 0.00843456573932110624631;
    item 2 0.0164460498543878109338;
    item 3 0.0258075980961766535646;
    item 4 0.0359571033071293220968;
    item 5 0.0464628932617579865414;
    item 6 0.0569795094941233574122;
    item 7 0.0672077542959907035404;
    item 8 0.0768796204990035310427;
    item 9 0.0857559200499903511542;
    item 10 0.0936271099812644736167;
    item 11 0.100314278611795578771;
    item 12 0.105669893580234809744;
    item 13 0.109578421055924638237;
    item 14 0.111956873020953456880;
    item 15 0.112755256720768691607;
    item 16 0.111956873020953456880;
    item 17 0.109578421055924638237;
    item 18 0.105669893580234809744;
    item 19 0.100314278611795578771;
    item 20 0.0936271099812644736167;
    item 21 0.0857559200499903511542;
    item 22 0.0768796204990035310427;
    item 23 0.0672077542959907035404;
    item 24 0.0569795094941233574122;
    item 25 0.0464628932617579865414;
    item 26 0.0359571033071293220968;
    item 27 0.0258075980961766535646;
    item 28 0.0164460498543878109338;
    item 29 0.00843456573932110624631;
    item 30 0.00254478079156187441540 ].

(** [Grid.get_quadrature_patterson_1d(n)]; the message printed before the
    raise is not modelled. *)
Definition get_quadrature_patterson_1d (n : Z) : Py.outcome (value * value) :=
  (x <- zeros1 n ;;
   w <- zeros1 n ;;
   if (n =? 1)%Z then
     Py.Return (Scalar 0.0, Scalar 2.0)
   else if (n =? 3)%Z then
     Py.Return (Array (assign x patterson_x_3), Array (assign w patterson_w_3))
   else if (n =? 7)%Z then
     Py.Return (Array (assign x patterson_x_7), Array (assign w patterson_w_7))
   else if (n =? 15)%Z then
     Py.Return (Array (assign x patterson_x_15), Array (assign w patterson_w_15))
   else if (n =? 31)%Z then
     Py.Return (Array (assign x patterson_x_31), Array (assign w patterson_w_31))
   else
     Py.Raise Py.NotImplementedError)%py.

Section Rules.
Context {amb : Ambient}.

(** The numerical kernels of numpy and scipy the rules call. *)
Variable np_sqrt : Q -> Q.
Variable np_cos : Q -> Q.
Variable np_pi : Q.
(** [np.linalg.eig]: eigenvalues and the matrix of eigenvectors (rows). *)
Variable np_linalg_eig : np.ndarray2 -> list Q * np.ndarray2.
Variable np_argsort : list Q -> list nat.
(** [np.polynomial.hermite_e.hermegauss] *)
Variable hermegauss : Z -> Py.outcome (list Q * list Q).
(** [np.real(ifft(v, n=None, axis=0))] *)
Variable ifft_real : np.ndarray2 -> np.ndarray2.

(** [np.arange(a, b)] as floats *)
Definition arange (a b : Z) : list Q :=
  map (fun i => inject_Z (a + Z.of_nat i)) (seq 0 (Z.to_nat (b - a))).

(** [np.diag(t1) + np.diag(t2, 1) + np.diag(t2, -1)] *)
Definition tridiagonal (t1 t2 : list Q) : np.ndarray2 :=
  let n := length t1 in
  map (fun i =>
         map (fun j =>
                if (i =? j)%nat then nth i t1 0%Q
                else if (j =? S i)%nat then nth i t2 0%Q
                else if (i =? S j)%nat then nth j t2 0%Q
                else 0%Q)
           (seq 0 n))
    (seq 0 n).

(** [Grid.get_quadrature_jacobi_1d(n, p, q)]; a division by zero, which
    only shapes outside the beta family produce, is outside the model. *)
Definition get_quadrature_jacobi_1d (n : Z) (p q : Q)
  : Py.outcome (value * value) :=
  let n_arr := arange 1 n in
  let t01 := (1.0 * (p - q) / (2 + q + p))%Q in
  let t02 := map (fun k => (1.0 * ((p - q) * (q + p))
                            / ((2 * k + q + p) * (2 * k + 2 + q + p)))%Q)
               n_arr in
  let t1 := t01 :: t02 in
  let t2 := map (fun k => np_sqrt
                            ((4.0 * k * (k + q) * (k + p) * (k + q + p))
                             / ((2 * k - 1 + q + p)
                                * ((2 * k + q + p) * (2 * k + q + p))
                                * (2 * k + 1 + q + p)))%Q)
              n_arr in
  let t := tridiagonal t1 t2 in
  let '(eigvals, eigvecs) := np_linalg_eig t in
  let idx_sorted := np_argsort eigvals in
  let eigvals_sorted := map (fun j => nth j eigvals 0%Q) idx_sorted in
  let row0 := nth 0 eigvecs [] in
  let weights :=
    map (fun j => (2.0 * (nth j row0 0 * nth j row0 0))%Q) idx_sorted in
  Py.Return (Array eigvals_sorted, Array weights).

(** [Grid.get_quadrature_hermite_1d(n)] *)
Definition get_quadrature_hermite_1d (n : Z) : Py.outcome (value * value) :=
  (kw <- hermegauss n ;;
   let knots := fst kw in
   let weights := snd kw in
   let weights := map (fun w => (2.0 * w / sum weights)%Q) weights in
   Py.Return (Array knots, Array weights))%py.

(** [c[::2, 0] = rhs]: the rows 0, 2, 4, ... take the entries of [rhs] in
    turn; numpy refuses a right-hand side whose length is neither one nor
    the number of these rows. *)
Fixpoint set_even_rows_col0 (c : np.ndarray2) (rhs : list Q) : np.ndarray2 :=
  match c, rhs with
  | r0 :: r1 :: c', v :: rhs' =>
      np.upd 0 (fun _ => v) r0 :: r1 :: set_even_rows_col0 c' rhs'
  | [r0], v :: _ => [np.upd 0 (fun _ => v) r0]
  | _, _ => c
  end.

Definition assign_even_rows_col0 (c : np.ndarray2) (rhs : list Q)
  : Py.outcome np.ndarray2 :=
  let rows := ((length c + 1) / 2)%nat in
  if (length rhs =? rows)%nat then Py.Return (set_even_rows_col0 c rhs)
  else if (length rhs =? 1)%nat
       then Py.Return (set_even_rows_col0 c (repeat (hd 0%Q rhs) rows))
       else Py.Raise (Py.ValueError "could not broadcast input array").

(** [c[i, j] = v] with the bounds check of numpy *)
Definition setitem2_checked (c : np.ndarray2) (i j : nat) (v : Q)
  : Py.outcome np.ndarray2 :=
  match nth_error c i with
  | Some row =>
      if (j <? length row)%nat then Py.Return (np.setitem2 c i j v)
      else Py.Raise (Py.IndexError "index is out of bounds for axis 1")
  | None => Py.Raise (Py.IndexError "index is out of bounds for axis 0")
  end.

(** [f[i, j]] with the bounds check of numpy *)
Definition getitem2 (f : np.ndarray2) (i j : nat) : Py.outcome Q :=
  match nth_error f i with
  | Some row =>
      match nth_error row j with
      | Some v => Py.Return v
      | None => Py.Raise (Py.IndexError "index is out of bounds for axis 1")
      end
  | None => Py.Raise (Py.IndexError "index is out of bounds for axis 0")
  end.

(** [f[a:b, j]] *)
Definition column_slice (f : np.ndarray2) (a b j : nat) : list Q :=
  map (fun row => nth j row 0%Q) (firstn (b - a) (skipn a f)).

(** [Grid.get_quadrature_clenshaw_curtis_1d(n)] *)
Definition get_quadrature_clenshaw_curtis_1d (n : Z)
  : Py.outcome (value * value) :=
  if (n =? 1)%Z then
    Py.Return (Scalar 0, Scalar 2)
  else
    (let n := (n - 1)%Z in
     if (n <? 0)%Z
     then Py.Raise (Py.ValueError "negative dimensions are not allowed")
     else
     let c := np.zeros2 (Z.to_nat n) 2 in
     let k := map (fun j => (2 * (1 + j))%Q) (arange 0 (n / 2)) in
     c <- assign_even_rows_col0 c
            (map (fun d => (2 / d)%Q) (1%Q :: map (fun k => (1 - k * k)%Q) k)) ;;
     c <- setitem2_checked c 1 1 (- inject_Z n)%Q ;;
     let v := np.vstack c (rev (firstn (Z.to_nat n - 1) (skipn 1 c))) in
     let f := ifft_real v in
     let knots := column_slice f 0 (Z.to_nat n) 1 in
     f00 <- getitem2 f 0 0 ;;
     fn0 <- getitem2 f (Z.to_nat n) 0 ;;
     let weights :=
       f00 :: map (fun x => (2 * x)%Q) (column_slice f 1 (Z.to_nat n) 0)
           ++ [fn0] in
     Py.Return (Array knots, Array weights))%py.

(** The weight loop of the Fejer rule of type 2 at node [i]. *)
Definition fejer2_weight (n : Z) (theta_i : Q) : Q :=
  let jhi := ((n - 1) / 2)%Z in
  let w :=
    fold_left
      (fun w j =>
         let angle := (2.0 * (j + 1) * theta_i)%Q in
         (w - 2.0 * np_cos angle / (4 * ((j + 1) * (j + 1)) - 1))%Q)
      (arange 0 jhi) 1.0%Q in
  let p := if (0 <? jhi)%Z then (2 * ((n + 1) / 2) - 1)%Z else 1%Z in
  (w - np_cos (inject_Z (p + 1) * theta_i) / inject_Z p)%Q.

(** [Grid.get_quadrature_fejer2_1d(n)] *)
Definition get_quadrature_fejer2_1d (n : Z) : Py.outcome (value * value) :=
  if (n =? 1)%Z then
    Py.Return (Array [0.0%Q], Array [2.0%Q])
  else if (n =? 2)%Z then
    Py.Return (Array [(-0.5)%Q; 0.5%Q], Array [1.0%Q; 1.0%Q])
  else
    (_ <- zeros1 n ;;
     let theta :=
       map (fun i => (inject_Z n - i) * np_pi / (inject_Z n + 1))%Q
         (arange 0 n) in
     let knots := map np_cos theta in
     let weights := map (fejer2_weight n) theta in
     let weights := map (fun w => (2.0 * w / (inject_Z n + 1))%Q) weights in
     Py.Return (Array knots, Array weights))%py.

(** *** Facts about the rules *)

Lemma sum_scaled (a b : Q) (l : list Q) :
  (sum (map (fun w => a * w / b) l) == a * sum l / b)%Q.
Proof.
  induction l as [|x l IH]; simpl.
  - unfold Qdiv. ring.
  - rewrite IH. unfold Qdiv. ring.
Qed.

(** X12. The Hermite weights are renormalised: whatever weights numpy's
    Gauss-Hermite routine returns, if their sum is not zero the returned
    weights sum to 2. *)
Lemma hermite_weights_sum n knots weights :
  hermegauss n = Py.Return (knots, weights) ->
  ~ (sum weights == 0)%Q ->
  exists weights',
    get_quadrature_hermite_1d n = Py.Return (Array knots, Array weights') /\
    (sum weights' == 2)%Q.
Proof.
  intros H Hs. unfold get_quadrature_hermite_1d. rewrite H. cbn [Py.bind fst snd].
  eexists. split; [reflexivity|].
  rewrite sum_scaled. field. exact Hs.
Qed.

(** C7, Clenshaw-Curtis.  For three nodes the rule does not return: the
    array [c] has [n - 1 = 2] rows, so [c[::2, 0]] is one entry, and the
    right-hand side assigned to it has two.  For two nodes [c] has one
    row and [c[1, 1]] is out of bounds. *)
Theorem clenshaw_curtis_raises :
  get_quadrature_clenshaw_curtis_1d 3
    = Py.Raise (Py.ValueError "could not broadcast input array") /\
  get_quadrature_clenshaw_curtis_1d 2
    = Py.Raise (Py.IndexError "index is out of bounds for axis 0").
Proof. split; reflexivity. Qed.

(** X10. For every odd number of nodes from three on the Clenshaw-Curtis rule
    raises [ValueError]: the array [c] has an even number [n - 1] of rows,
    so [c[::2, 0]] has [(n - 1) / 2] entries, and the right-hand side
    assigned to it has one more. *)
Lemma clenshaw_curtis_odd_raises (m : Z) :
  (1 <= m)%Z ->
  get_quadrature_clenshaw_curtis_1d (2 * m + 1)
    = Py.Raise (Py.ValueError "could not broadcast input array").
Proof.
  intros Hm. unfold get_quadrature_clenshaw_curtis_1d.
  destruct (Z.eqb_spec (2 * m + 1) 1) as [E|_]; [lia|].
  replace (2 * m + 1 - 1)%Z with (2 * m)%Z by lia.
  destruct (Z.ltb_spec (2 * m) 0) as [E|_]; [lia|].
  unfold assign_even_rows_col0.
  rewrite np.length_zeros2, !length_map. cbn [length]. rewrite !length_map.
  unfold arange. rewrite length_map, length_seq.
  replace (2 * m / 2 - 0)%Z with m by (rewrite Z.mul_comm, Z.div_mul; lia).
  assert (R : ((Z.to_nat (2 * m) + 1) / 2 = Z.to_nat m)%nat).
  { replace (Z.to_nat (2 * m) + 1)%nat with (1 + Z.to_nat m * 2)%nat by lia.
    rewrite Nat.div_add by lia. reflexivity. }
  rewrite R.
  destruct (Nat.eqb_spec (S (Z.to_nat m)) (Z.to_nat m)) as [E|_]; [lia|].
  destruct (Nat.eqb_spec (S (Z.to_nat m)) 1) as [E|_]; [lia|].
  reflexivity.
Qed.

Lemma Forall_drop {A} (P : A -> Prop) n l :
  Forall P l -> Forall P (skipn n l).
Proof.
  intros H. rewrite <- (firstn_skipn n l) in H.
  apply Forall_app in H. tauto.
Qed.

Lemma Forall_take {A} (P : A -> Prop) n l :
  Forall P l -> Forall P (firstn n l).
Proof.
  intros H. rewrite <- (firstn_skipn n l) in H.
  apply Forall_app in H. tauto.
Qed.

Lemma zeros2_rows n m :
  Forall (fun row : list Q => length row = m) (np.zeros2 n m).
Proof.
  apply Forall_forall. intros row Hin. unfold np.zeros2 in Hin.
  apply repeat_spec in Hin. subst row. apply repeat_length.
Qed.

Lemma set_even_rows_col0_pair (m : nat) (c : np.ndarray2) :
  (forall rhs,
      Forall (fun row : list Q => length row = m) c ->
      length (set_even_rows_col0 c rhs) = length c /\
      Forall (fun row => length row = m) (set_even_rows_col0 c rhs)) /\
  (forall r rhs,
      Forall (fun row : list Q => length row = m) (r :: c) ->
      length (set_even_rows_col0 (r :: c) rhs) = length (r :: c) /\
      Forall (fun row => length row = m) (set_even_rows_col0 (r :: c) rhs)).
Proof.
  induction c as [|a c [IH1 IH2]].
  - split.
    + intros rhs Hc. destruct rhs; now split.
    + intros r rhs Hc. destruct rhs as [|v rhs]; cbn [set_even_rows_col0];
        (split; [reflexivity|]); [exact Hc|].
      constructor; [|constructor]. rewrite np.length_upd. now inversion Hc.
  - split; [intros rhs Hc; now apply IH2|].
    intros r rhs Hc. destruct rhs as [|v rhs]; cbn [set_even_rows_col0].
    + now split.
    + inversion Hc as [|? ? Hr0 Hc1]. inversion Hc1 as [|? ? Hr1 Hc2].
      destruct (IH1 rhs Hc2) as [L W].
      split; [cbn [length]; now rewrite L|].
      constructor; [now rewrite np.length_upd|]. now constructor.
Qed.

Lemma set_even_rows_col0_shape (m : nat) c rhs :
  Forall (fun row : list Q => length row = m) c ->
  length (set_even_rows_col0 c rhs) = length c /\
  Forall (fun row => length row = m) (set_even_rows_col0 c rhs).
Proof. apply set_even_rows_col0_pair. Qed.

Lemma setitem2_shape (m : nat) c i j v :
  Forall (fun row : list Q => length row = m) c ->
  length (np.setitem2 c i j v) = length c /\
  Forall (fun row => length row = m) (np.setitem2 c i j v).
Proof.
  unfold np.setitem2. intros Hc. split; [apply np.length_upd|].
  revert i. induction Hc as [|r c Hr Hc IH]; intros [|i]; cbn [np.upd].
  - constructor.
  - constructor.
  - constructor; [now rewrite np.length_upd | exact Hc].
  - constructor; [exact Hr | apply IH].
Qed.

Lemma getitem2_in_shape (m : nat) f i j :
  Forall (fun row : list Q => length row = m) f ->
  (i < length f)%nat -> (j < m)%nat ->
  getitem2 f i j = Py.Return (nth j (nth i f []) 0%Q).
Proof.
  intros Hf Hi Hj. unfold getitem2.
  destruct (nth_error f i) as [row|] eqn:E.
  - assert (Hrow : length row = m).
    { rewrite Forall_forall in Hf. apply Hf. eapply nth_error_In. exact E. }
    rewrite (nth_error_nth f i [] E).
    destruct (nth_error row j) as [v|] eqn:E2.
    + now rewrite (nth_error_nth row j 0%Q E2).
    + apply nth_error_None in E2. lia.
  - apply nth_error_None in E. lia.
Qed.

(** X9. For an even number [n >= 4] of nodes the Clenshaw-Curtis rule
    returns (when the inverse FFT keeps the shape of its input, as numpy's
    does), but with [n - 1] knots for its [n] weights: the knots are read
    from the first [n - 1] rows of the transform only. *)
Theorem clenshaw_curtis_even_returns (m : Z) :
  (2 <= m)%Z ->
  (forall (w : nat) v,
      Forall (fun row => length row = w) v ->
      length (ifft_real v) = length v /\
      Forall (fun row => length row = w) (ifft_real v)) ->
  exists knots weights,
    get_quadrature_clenshaw_curtis_1d (2 * m)
      = Py.Return (Array knots, Array weights) /\
    length knots = Z.to_nat (2 * m - 1) /\
    length weights = Z.to_nat (2 * m).
Proof.
  intros Hm Hifft. unfold get_quadrature_clenshaw_curtis_1d.
  destruct (Z.eqb_spec (2 * m) 1) as [E|_]; [lia|].
  destruct (Z.ltb_spec (2 * m - 1) 0) as [E|_]; [lia|].
  set (n := Z.to_nat (2 * m - 1)).
  assert (Hn : (3 <= n)%nat) by (unfold n; lia).
  unfold assign_even_rows_col0.
  rewrite np.length_zeros2, !length_map. cbn [length]. rewrite !length_map.
  unfold arange at 1. rewrite length_map, length_seq.
  assert (R1 : Z.to_nat ((2 * m - 1) / 2 - 0) = Z.to_nat (m - 1)).
  { f_equal. replace (2 * m - 1)%Z with (1 + (m - 1) * 2)%Z by lia.
    rewrite Z.div_add by lia. change (1 / 2)%Z with 0%Z. lia. }
  assert (R2 : ((n + 1) / 2 = S (Z.to_nat (m - 1)))%nat).
  { replace (n + 1)%nat with (0 + S (Z.to_nat (m - 1)) * 2)%nat
      by (unfold n; lia).
    rewrite Nat.div_add by lia. reflexivity. }
  rewrite R1, R2, Nat.eqb_refl. cbn [Py.bind].
  match goal with
  | |- context [set_even_rows_col0 ?c ?rhs] =>
      destruct (@set_even_rows_col0_shape 2 c rhs (zeros2_rows n 2))
        as [L1 W1];
      set (c1 := set_even_rows_col0 c rhs) in *
  end.
  rewrite np.length_zeros2 in L1.
  unfold setitem2_checked.
  destruct (nth_error c1 1) as [row1|] eqn:E1;
    [|apply nth_error_None in E1; lia].
  assert (Hrow1 : length row1 = 2%nat).
  { rewrite Forall_forall in W1. apply W1. eapply nth_error_In. exact E1. }
  rewrite Hrow1. cbn [Nat.ltb Nat.leb Py.bind].
  destruct (@setitem2_shape 2 c1 1 1 (- inject_Z (2 * m - 1))%Q W1)
    as [L2 W2].
  set (c2 := np.setitem2 c1 1 1 (- inject_Z (2 * m - 1))%Q) in *.
  set (v := np.vstack c2 (rev (firstn (n - 1) (skipn 1 c2)))).
  assert (Wv : Forall (fun row : list Q => length row = 2%nat) v).
  { unfold v, np.vstack. apply Forall_app. split; [exact W2|].
    apply Forall_rev, Forall_take, Forall_drop. exact W2. }
  assert (Lv : length v = (2 * n - 1)%nat).
  { unfold v, np.vstack. rewrite length_app, length_rev, length_firstn,
      length_skipn, L2, L1. lia. }
  destruct (Hifft 2%nat v Wv) as [Lf Wf].
  rewrite (@getitem2_in_shape 2 (ifft_real v) 0 0 Wf) by lia.
  rewrite (@getitem2_in_shape 2 (ifft_real v) n 0 Wf) by lia.
  cbn [Py.bind].
  eexists _, _. split; [reflexivity|]. split.
  - unfold column_slice. rewrite length_map, length_firstn. cbn [skipn]. lia.
  - cbn [length]. rewrite length_app, length_map. unfold column_slice.
    rewrite length_map, length_firstn, length_skipn. cbn [length]. lia.
Qed.

(** X11. The Fejer rule of type 2 returns one weight per knot: for every
    [n >= 0] it returns [n] knots and [n] weights, and for a negative [n]
    it raises the [ValueError] of [np.zeros]. *)
Theorem fejer2_knots_and_weights (n : Z) :
  ((n < 0)%Z ->
   get_quadrature_fejer2_1d n
   = Py.Raise (Py.ValueError "negative dimensions are not allowed")) /\
  ((0 <= n)%Z ->
   exists knots weights,
     get_quadrature_fejer2_1d n = Py.Return (Array knots, Array weights) /\
     length knots = Z.to_nat n /\ length weights = Z.to_nat n).
Proof.
  unfold get_quadrature_fejer2_1d, zeros1. split; intros Hn.
  - destruct (Z.eqb_spec n 1) as [E|_]; [lia|].
    destruct (Z.eqb_spec n 2) as [E|_]; [lia|].
    destruct (Z.ltb_spec n 0) as [_|E]; [reflexivity | lia].
  - destruct (Z.eqb_spec n 1) as [->|_].
    { eexists _, _. repeat split. }
    destruct (Z.eqb_spec n 2) as [->|_].
    { eexists _, _. repeat split. }
    destruct (Z.ltb_spec n 0) as [E|_]; [lia|]. cbn [Py.bind].
    eexists _, _. split; [reflexivity|].
    unfold arange. rewrite !length_map, length_seq. split; f_equal; lia.
Qed.

(** *** TensorGrid *)

(** [l[i]] on a Python list *)
Definition getitem {A} (l : list A) (i : nat) : Py.outcome A :=
  match nth_error l i with
  | Some a => Py.Return a
  | None => Py.Raise (Py.IndexError "list index out of range")
  end.

(** The names the constructor compares [grid_type[i_dim]] with. *)
Definition recognized (name : string) : bool :=
  String.eqb name "jacobi" || String.eqb name "hermite"
  || String.eqb name "clenshaw_curtis" || String.eqb name "fejer2"
  || String.eqb name "patterson".

(** The body of the first loop of [TensorGrid.__init__] at [i_dim]: the
    knots and weights appended to the two lists.  In the last branch the
    [AttributeError] is built and dropped; there is no [raise]. *)
Definition knots_weights (problem : Problem) (grid_type : list string)
  (n_dim : list Z) (i_dim : nat) : Py.outcome (value * value) :=
  (gt <- getitem grid_type i_dim ;;
   if String.eqb gt "jacobi" then
     n <- getitem n_dim i_dim ;;
     get_quadrature_jacobi_1d n
       (fst (pdf_shape (param problem i_dim)) - 1)%Q
       (snd (pdf_shape (param problem i_dim)) - 1)%Q
   else if String.eqb gt "hermite" then
     n <- getitem n_dim i_dim ;; get_quadrature_hermite_1d n
   else if String.eqb gt "clenshaw_curtis" then
     n <- getitem n_dim i_dim ;; get_quadrature_clenshaw_curtis_1d n
   else if String.eqb gt "fejer2" then
     n <- getitem n_dim i_dim ;; get_quadrature_fejer2_1d n
   else if String.eqb gt "patterson" then
     n <- getitem n_dim i_dim ;; get_quadrature_patterson_1d n
   else
     let knots := Array [] in
     let weights := Array [] in
     let _ := Py.AttributeError
                ("Specified grid_type " ++ gt ++ " not implemented!") in
     Py.Return (knots, weights))%py.

(** [for i_dim in range(self.problem.dim): ...] *)
Fixpoint knots_weights_lists (problem : Problem) (grid_type : list string)
  (n_dim : list Z) (dims : list nat)
  : Py.outcome (list value * list value) :=
  match dims with
  | [] => Py.Return ([], [])
  | i_dim :: dims' =>
      (kw <- knots_weights problem grid_type n_dim i_dim ;;
       rest <- knots_weights_lists problem grid_type n_dim dims' ;;
       Py.Return (fst kw :: fst rest, snd kw :: snd rest))%py
  end.

(** [np.asarray(x)] followed by [len(x)], which a bare number refuses. *)
Definition as_sized (v : value) : Py.outcome (list Q) :=
  match v with
  | Array xs => Py.Return xs
  | Scalar _ => Py.Raise (Py.TypeError "len() of unsized object")
  end.

Fixpoint all_sized (vs : list value) : Py.outcome (list (list Q)) :=
  match vs with
  | [] => Py.Return []
  | v :: vs' =>
      (xs <- as_sized v ;; rest <- all_sized vs' ;; Py.Return (xs :: rest))%py
  end.

(** All combinations, the first array varying slowest. *)
Fixpoint combinations (arrays : list (list Q)) : np.ndarray2 :=
  match arrays with
  | [] => [[]]
  | a :: rest => flat_map (fun x => map (cons x) (combinations rest)) a
  end.

(** [sklearn.utils.extmath.cartesian(arrays)]: it reads [arrays[0].dtype]
    and the length of every array. *)
Definition cartesian (arrays : list value) : Py.outcome np.ndarray2 :=
  match arrays with
  | [] => Py.Raise (Py.IndexError "list index out of range")
  | _ => (arrs <- all_sized arrays ;; Py.Return (combinations arrs))%py
  end.

(** Lifting a computation that only raises or returns. *)
Definition lift {A} (c : Py.outcome A) : M A := fun w => (c, w).

(** The body of the rescaling loop at [i_dim]:
    [coords_norm[:, i_dim] = coords_norm[:, i_dim] * 1.960] for a normal
    input whose rule is not Hermite's. *)
Definition rescale_column (problem : Problem) (grid_type : list string)
  (i_dim : nat) (a : np.ndarray2) : np.ndarray2 :=
  if is_norm (param problem i_dim)
     && negb (String.eqb (nth i_dim grid_type EmptyString) "hermite")
  then map (np.upd i_dim (fun x => (x * 1.960)%Q)) a
  else a.

(** [np.prod(a, axis=1)] *)
Definition prod_rows (a : np.ndarray2) : list Q :=
  map (fold_right Qmult 1%Q) a.

(** [TensorGrid.__init__(problem, {"grid_type": ..., "n_dim": ...})] *)
Definition TensorGrid (problem : Problem) (grid_type : list string)
  (n_dim : list Z) : M Grid :=
  (let self := init in
   kw <~ lift (knots_weights_lists problem grid_type n_dim
                 (seq 0 (dim problem))) ;;
   let knots_dim_list := fst kw in
   let weights_dim_list := snd kw in
   cn <~ lift (cartesian knots_dim_list) ;;
   self <~ set_coords_norm cn self ;;
   let cn := fold_left (fun a i_dim => rescale_column problem grid_type i_dim a)
               (seq 0 (dim problem)) cn in
   let self := with_coords_norm (Some cn) self in
   cw <~ lift (cartesian weights_dim_list) ;;
   let self :=
     with_weights
       (Some (map (fun w => (w / 2.0 ^ Z.of_nat (dim problem))%Q) (prod_rows cw)))
       self in
   self <~ set_coords (get_denormalized_coordinates problem cn) self ;;
   c <~ the "coords" (_coords self) ;;
   let self := with_n_grid (Some (np.shape0 c)) self in
   ids <~ fresh_ids (np.shape0 c) ;;
   ret (with_coords_id (Some ids) self))%py.

(** C9.  With one input and a name that is none of the five the
    constructor compares with, the constructor returns: the knots and
    weights of that dimension are empty, and so is the grid, with
    [n_grid = 0] and no point, weight or id.  Nothing is raised. *)
Theorem TensorGrid_unknown_grid_type (p : RandomParameter) (name : string)
  (n : Z) (w : world) :
  recognized name = false ->
  TensorGrid [p] [name] [n] w =
  (Py.Return {| n_grid := Some 0%Z; _coords := Some [];
                _coords_norm := Some []; coords_id := Some [];
                _weights := Some []; seed := None |},
   w).
Proof.
  unfold recognized. intros H.
  repeat (apply orb_false_elim in H; destruct H as [H ?]).
  unfold TensorGrid.
  cbn [dim length seq knots_weights_lists knots_weights getitem nth_error
       Py.bind].
  rewrite H, H0, H1, H2, H3.
  cbv [lift mbind Py.bind fst snd cartesian all_sized as_sized combinations
       flat_map set_coords_norm set_coords ensure_ids fresh_ids ret the
       with_coords_id with_n_grid with_coords with_coords_norm with_weights
       init np.shape0 length Z.of_nat Z.to_nat uuid4s
       n_grid _coords _coords_norm coords_id _weights seed
       fold_left rescale_column get_denormalized_coordinates map prod_rows
       os_urandom np_random issued].
  destruct (is_norm (param [p] 0) && negb (String.eqb (nth 0 [name] EmptyString) "hermite"));
    destruct w; reflexivity.
Qed.

(** *** The size of a tensor grid *)

(** The number of combinations of one entry per array. *)
Definition n_combinations (arrays : list (list Q)) : nat :=
  fold_right Nat.mul 1%nat (map (@length Q) arrays).

Lemma length_combinations arrays :
  length (combinations arrays) = n_combinations arrays.
Proof.
  unfold n_combinations.
  induction arrays as [|a arrays IH]; cbn [combinations map fold_right];
    [reflexivity|].
  induction a as [|x a IHa]; cbn [flat_map length]; [reflexivity|].
  rewrite length_app, length_map, IHa, IH. reflexivity.
Qed.

Lemma knots_weights_lists_lengths problem grid_type n_dim dims ks ws :
  knots_weights_lists problem grid_type n_dim dims = Py.Return (ks, ws) ->
  length ks = length dims /\ length ws = length dims.
Proof.
  revert ks ws. induction dims as [|d dims IH]; intros ks ws H;
    cbn [knots_weights_lists] in H.
  - injection H as <- <-. now split.
  - destruct (knots_weights problem grid_type n_dim d) as [kw|e];
      cbn [Py.bind] in H; [|discriminate H].
    destruct (knots_weights_lists problem grid_type n_dim dims) as [[ks' ws']|e];
      cbn [Py.bind fst snd] in H; [|discriminate H].
    injection H as <- <-. destruct (IH ks' ws' eq_refl) as [A B].
    cbn [length]. now rewrite A, B.
Qed.

Lemma knots_weights_lists_each problem grid_type n_dim dims r :
  knots_weights_lists problem grid_type n_dim dims = Py.Return r ->
  forall i, In i dims ->
    Py.returns (knots_weights problem grid_type n_dim i).
Proof.
  revert r. induction dims as [|d dims IH]; intros r H i Hi; [destruct Hi|].
  cbn [knots_weights_lists] in H.
  destruct (knots_weights problem grid_type n_dim d) as [kw|e] eqn:E;
    cbn [Py.bind] in H; [|discriminate H].
  destruct (knots_weights_lists problem grid_type n_dim dims) as [r'|e];
    cbn [Py.bind] in H; [|discriminate H].
  destruct Hi as [<-|Hi]; [now exists kw | now apply (IH r')].
Qed.

Lemma length_rescale problem grid_type dims a :
  length (fold_left (fun a i_dim => rescale_column problem grid_type i_dim a)
            dims a) = length a.
Proof.
  revert a. induction dims as [|d dims IH]; intros a; cbn [fold_left];
    [reflexivity|].
  rewrite IH. unfold rescale_column.
  destruct (_ && _); [apply length_map | reflexivity].
Qed.

(** X14. When the rules of all dimensions return arrays, the tensor grid
    has one point for every combination of one knot per dimension, and one
    weight for every combination of one weight per dimension: [n_grid],
    [coords], [coords_norm] and [coords_id] have the product of the
    numbers of knots as their size, [weights] the product of the numbers
    of weights. *)
Theorem TensorGrid_size problem grid_type n_dim w ks ws karr warr :
  (0 < dim problem)%nat ->
  knots_weights_lists problem grid_type n_dim (seq 0 (dim problem))
    = Py.Return (ks, ws) ->
  all_sized ks = Py.Return karr ->
  all_sized ws = Py.Return warr ->
  exists g w' c cn ids weights,
    TensorGrid problem grid_type n_dim w = (Py.Return g, w') /\
    sized g (n_combinations karr) c cn ids /\
    _weights g = Some weights /\
    length weights = n_combinations warr.
Proof.
  intros Hdim Hkw Hks Hws.
  destruct (knots_weights_lists_lengths _ _ _ _ Hkw) as [Lk Lw].
  rewrite length_seq in Lk, Lw.
  unfold TensorGrid. rewrite Hkw.
  erewrite mbind_return by reflexivity. cbn [fst snd].
  assert (Ck : cartesian ks = Py.Return (combinations karr)).
  { unfold cartesian. destruct ks; [cbn in Lk; lia|]. now rewrite Hks. }
  assert (Cw : cartesian ws = Py.Return (combinations warr)).
  { unfold cartesian. destruct ws; [cbn in Lw; lia|]. now rewrite Hws. }
  rewrite Ck. erewrite mbind_return by reflexivity.
  erewrite mbind_return
    by (unfold set_coords_norm; apply ensure_ids_none; reflexivity).
  rewrite Cw. erewrite mbind_return by reflexivity.
  erewrite mbind_return
    by (unfold set_coords; eapply ensure_ids_some; reflexivity).
  cbn [the with_n_grid with_coords _coords].
  erewrite mbind_return by reflexivity.
  erewrite mbind_return by apply fresh_ids_run.
  eexists _, _, _, _, _, _. split; [reflexivity|].
  assert (Lc : forall a : np.ndarray2,
             length a = n_combinations karr ->
             length (get_denormalized_coordinates problem a)
             = n_combinations karr).
  { intros a La. unfold get_denormalized_coordinates. now rewrite length_map. }
  split; [|split].
  - constructor;
      cbn [with_coords_id with_n_grid with_coords with_weights
           with_coords_norm n_grid _coords _coords_norm coords_id];
      try reflexivity.
    + unfold np.shape0. f_equal. f_equal. apply Lc.
      rewrite length_rescale. apply length_combinations.
    + apply Lc. rewrite length_rescale. apply length_combinations.
    + rewrite length_rescale. apply length_combinations.
    + rewrite length_uuid4s. unfold np.shape0. rewrite Nat2Z.id.
      apply Lc. rewrite length_rescale. apply length_combinations.
  - reflexivity.
  - unfold prod_rows. rewrite !length_map. apply length_combinations.
Qed.

(** X15. With fewer names in [grid_type] than the problem has inputs the
    constructor does not return a grid: the missing name is an
    [IndexError], unless the rule of an earlier dimension raises first.
    The world is left as it was. *)
Theorem TensorGrid_short_grid_type problem grid_type n_dim w :
  (length grid_type < dim problem)%nat ->
  exists e, TensorGrid problem grid_type n_dim w = (Py.Raise e, w).
Proof.
  intros Hlen. unfold TensorGrid.
  destruct (knots_weights_lists problem grid_type n_dim (seq 0 (dim problem)))
    as [r|e] eqn:E.
  - exfalso.
    destruct (knots_weights_lists_each _ _ _ _ E (length grid_type))
      as [kw Hkw].
    { apply in_seq. lia. }
    unfold knots_weights, getitem in Hkw.
    assert (N : nth_error grid_type (length grid_type) = None)
      by (apply nth_error_None; lia).
    rewrite N in Hkw. discriminate Hkw.
  - exists e. reflexivity.
Qed.

End Rules.

Lemma TensorGrid_unknown_grid_type_witness :
  TensorGrid (amb := example_ambient) (fun x => x) (fun x => x) 3.14
    (fun t => ([], t)) (fun l => seq 0 (length l)) (fun _ => Py.Return ([], []))
    (fun v => v) [beta_unit] ["gauss"%string] [3%Z] example_world =
  (Py.Return {| n_grid := Some 0%Z; _coords := Some [];
                _coords_norm := Some []; coords_id := Some [];
                _weights := Some []; seed := None |},
   example_world).
Proof.
  apply (@TensorGrid_unknown_grid_type example_ambient (fun x => x)
           (fun x => x) 3.14 (fun t => ([], t)) (fun l => seq 0 (length l))
           (fun _ => Py.Return ([], [])) (fun v => v) beta_unit
           "gauss"%string 3%Z example_world).
  reflexivity.
Defined.

(** Stand-ins for the numerical kernels, for concrete runs of the rules:
    a Gauss-Hermite routine that returns two nodes, and a transform that
    returns its input. *)
Definition two_nodes (n : Z) : Py.outcome (list Q * list Q) :=
  Py.Return ([(-1)%Q; 1%Q], [1%Q; 1%Q]).

Definition same_array (v : np.ndarray2) : np.ndarray2 := v.

Lemma clenshaw_curtis_even_returns_witness :
  exists knots weights,
    get_quadrature_clenshaw_curtis_1d same_array 4
      = Py.Return (Array knots, Array weights) /\
    length knots = 3%nat /\ length weights = 4%nat.
Proof.
  apply (@clenshaw_curtis_even_returns (fun x => x) (fun x => x) 3.14
           same_array 2%Z).
  - lia.
  - intros w v H. split; [reflexivity | exact H].
Defined.

Lemma clenshaw_curtis_odd_raises_witness :
  get_quadrature_clenshaw_curtis_1d same_array 5
  = Py.Raise (Py.ValueError "could not broadcast input array").
Proof. apply (@clenshaw_curtis_odd_raises same_array 2%Z). lia. Defined.

Lemma hermite_weights_sum_witness :
  exists weights',
    get_quadrature_hermite_1d two_nodes 2
      = Py.Return (Array [(-1)%Q; 1%Q], Array weights') /\
    (sum weights' == 2)%Q.
Proof.
  apply (@hermite_weights_sum two_nodes 2%Z [(-1)%Q; 1%Q] [1%Q; 1%Q]).
  - reflexivity.
  - intros H. vm_compute in H. discriminate H.
Defined.

Lemma TensorGrid_size_witness :
  exists g w',
    TensorGrid (amb := example_ambient) (fun x => x) (fun x => x) 3.14
      (fun t => ([], t)) (fun l => seq 0 (length l)) two_nodes same_array
      [normal_std; normal_std] ["hermite"; "hermite"]%string [2; 2]%Z
      example_world = (Py.Return g, w') /\
    n_grid g = Some 4%Z.
Proof.
  edestruct (@TensorGrid_size example_ambient (fun x => x) (fun x => x) 3.14
               (fun t => ([], t)) (fun l => seq 0 (length l)) two_nodes
               same_array [normal_std; normal_std]
               ["hermite"; "hermite"]%string [2; 2]%Z example_world)
    as (g & w' & c & cn & ids & weights & Hrun & Hs & _).
  - cbn. lia.
  - reflexivity.
  - reflexivity.
  - reflexivity.
  - exists g, w'. split; [exact Hrun|]. exact (sized_n_grid Hs).
Defined.

Lemma TensorGrid_short_grid_type_witness :
  exists e,
    TensorGrid (amb := example_ambient) (fun x => x) (fun x => x) 3.14
      (fun t => ([], t)) (fun l => seq 0 (length l)) two_nodes same_array
      [normal_std; normal_std] ["hermite"]%string [2; 2]%Z example_world
    = (Py.Raise e, example_world).
Proof.
  apply (@TensorGrid_short_grid_type example_ambient (fun x => x)
           (fun x => x) 3.14 (fun t => ([], t)) (fun l => seq 0 (length l))
           two_nodes same_array [normal_std; normal_std]
           ["hermite"]%string [2; 2]%Z example_world).
  cbn. lia.
Defined.

(** The entries of a returned value. *)
Definition entries (v : value) : list Q :=
  match v with
  | Scalar x => [x]
  | Array xs => xs
  end.

(** [xs[i] < xs[i+1]] throughout *)
Fixpoint ascending (xs : list Q) : bool :=
  match xs with
  | x :: ((y :: _) as xs') => negb (Qle_bool y x) && ascending xs'
  | _ => true
  end.

(** C8. The Patterson rule returns its table for 1, 3, 7, 15 and 31
    nodes (the assignments fill the arrays with the tabulated numbers in
    order) and raises for every other count: [NotImplementedError], or the
    [ValueError] of [np.zeros] for a negative one. *)
Theorem patterson_node_counts :
  get_quadrature_patterson_1d 1 = Py.Return (Scalar 0.0, Scalar 2.0) /\
  get_quadrature_patterson_1d 3 =
    Py.Return (Array (map snd patterson_x_3), Array (map snd patterson_w_3)) /\
  get_quadrature_patterson_1d 7 =
    Py.Return (Array (map snd patterson_x_7), Array (map snd patterson_w_7)) /\
  get_quadrature_patterson_1d 15 =
    Py.Return (Array (map snd patterson_x_15), Array (map snd patterson_w_15)) /\
  get_quadrature_patterson_1d 31 =
    Py.Return (Array (map snd patterson_x_31), Array (map snd patterson_w_31)) /\
  (forall n : Z,
     ~ In n [1; 3; 7; 15; 31]%Z ->
     Py.raises (get_quadrature_patterson_1d n) /\
     ((0 <= n)%Z ->
      get_quadrature_patterson_1d n = Py.Raise Py.NotImplementedError)).
Proof.
  do 5 (split; [reflexivity|]).
  intros n Hn. cbn [In] in Hn.
  unfold get_quadrature_patterson_1d, zeros1.
  destruct (Z.ltb_spec n 0) as [Hneg|Hpos].
  - split; [eexists; reflexivity | lia].
  - cbn [Py.bind].
    destruct (Z.eqb_spec n 1); [exfalso; apply Hn; subst; auto 10|].
    destruct (Z.eqb_spec n 3); [exfalso; apply Hn; subst; auto 10|].
    destruct (Z.eqb_spec n 7); [exfalso; apply Hn; subst; auto 10|].
    destruct (Z.eqb_spec n 15); [exfalso; apply Hn; subst; auto 10|].
    destruct (Z.eqb_spec n 31); [exfalso; apply Hn; subst; auto 10|].
    split; [eexists; reflexivity | reflexivity].
Qed.

(** X13. The tabulated rules have their knots in ascending order, one weight
    per knot, and weights that sum to 2 within [1e-10]. *)
Lemma patterson_tables_sound (n : Z) :
  In n [1; 3; 7; 15; 31]%Z ->
  exists knots weights,
    get_quadrature_patterson_1d n = Py.Return (knots, weights) /\
    length (entries knots) = Z.to_nat n /\
    length (entries weights) = Z.to_nat n /\
    ascending (entries knots) = true /\
    (Qabs (sum (entries weights) - 2) <= 1E-10)%Q.
Proof.
  intros H. cbn [In] in H.
  destruct H as [<-|[<-|[<-|[<-|[<-|[]]]]]];
    (eexists _, _; split; [reflexivity|]);
    (split; [reflexivity|]); (split; [reflexivity|]);
    (split; [vm_compute; reflexivity | vm_compute; discriminate]).
Qed.

Lemma patterson_tables_sound_witness :
  exists knots weights,
    get_quadrature_patterson_1d 7 = Py.Return (knots, weights) /\
    length (entries knots) = 7%nat /\
    length (entries weights) = 7%nat /\
    ascending (entries knots) = true /\
    (Qabs (sum (entries weights) - 2) <= 1E-10)%Q.
Proof.
  apply (@patterson_tables_sound 7%Z). right. right. left. reflexivity.
Defined.

(** ** Grid.py: SparseGrid, merging the sub-grids *)

Definition epsilon_k : Q := 1E-6.

(** [x < y] on floats *)
Definition Qltb (x y : Q) : bool := negb (Qle_bool y x).

(** [np.sum(np.abs(row - first))] *)
Definition l1_distance (row first : list Q) : Q :=
  sum (map (fun xy => Qabs (fst xy - snd xy)) (combine row first)).

(** [np.sum(np.abs(row - first)) < epsilon_k] *)
Definition coincide (row first : list Q) : bool :=
  Qltb (l1_distance row first) epsilon_k.

(** [a[mask]] for a boolean mask *)
Fixpoint mask_select {A} (mask : list bool) (a : list A) : list A :=
  match mask, a with
  | m :: mask', x :: a' =>
      if m then x :: mask_select mask' a' else mask_select mask' a'
  | _, _ => []
  end.

(** [a[mask] = vals] for a boolean mask *)
Fixpoint mask_assign {A} (mask : list bool) (a vals : list A) : list A :=
  match mask, a with
  | m :: mask', x :: a' =>
      if m
      then match vals with
           | v :: vals' => v :: mask_assign mask' a' vals'
           | [] => x :: mask_assign mask' a' []
           end
      else x :: mask_assign mask' a' vals
  | _, _ => a
  end.

(** The variables of the merging loop. *)
Record merge_state : Type := {
  point_number_list : list Z;
  point_no : Z;
  coords_norm : np.ndarray2
}.

(** [any(point_number_list < 0)] *)
Definition any_not_found (st : merge_state) : bool :=
  existsb (fun p => (p <? 0)%Z) (point_number_list st).

(** One pass of the [while] loop; [dll_k_nf] is not empty inside the loop. *)
Definition merge_pass (dll_k : np.ndarray2) (st : merge_state) : merge_state :=
  let not_found := map (fun p => (p <? 0)%Z) (point_number_list st) in
  let dll_k_nf := mask_select not_found dll_k in
  match dll_k_nf with
  | [] => st
  | first :: _ =>
      let point_temp :=
        map (fun row => if coincide row first then point_no st else (-1)%Z)
          dll_k_nf in
      {| point_number_list :=
           mask_assign not_found (point_number_list st) point_temp;
         point_no := (point_no st + 1)%Z;
         coords_norm := coords_norm st ++ [first] |}
  end.

(** [while any(point_number_list < 0): ...]; [fuel] bounds the number of
    passes, and one pass per candidate point is enough ([merge_loop_done]). *)
Fixpoint merge_loop (fuel : nat) (dll_k : np.ndarray2) (st : merge_state)
  : merge_state :=
  if any_not_found st then
    match fuel with
    | O => st
    | S fuel' => merge_loop fuel' dll_k (merge_pass dll_k st)
    end
  else st.

(** [np.amax] of an integer array *)
Definition amax (l : list Z) : Py.outcome Z :=
  match l with
  | [] => Py.Raise (Py.ValueError "zero-size array to reduction operation maximum")
  | x :: l' => Py.Return (fold_left Z.max l' x)
  end.

(** The first half of [SparseGrid.calc_coords_weights], from the stacked
    sub-grids [dll_k], [dll_w] to [self.weights] and the kept rows of
    [coords_norm]. *)
Definition merge_subgrids (dim : nat) (dll_k : np.ndarray2) (dll_w : list Q)
  : Py.outcome (list Q * np.ndarray2) :=
  let st0 := {| point_number_list := repeat (-1)%Z (length dll_w);
                point_no := 0; coords_norm := [] |} in
  if negb (length dll_k =? length dll_w)%nat && negb (length dll_w =? 0)%nat
  then Py.Raise (Py.IndexError "boolean index did not match indexed array")
  else
    (let st := merge_loop (length dll_w) dll_k st0 in
     top <- amax (point_number_list st) ;;
     let weights :=
       map (fun i_point =>
              sum (mask_select (map (Z.eqb i_point) (point_number_list st))
                     dll_w))
         (Py.range (top + 1)) in
     if (dim =? 0)%nat then Py.Raise Py.ZeroDivisionError
     else
     let epsilon_w := (1E-8 / inject_Z (Z.of_nat dim))%Q in
     let keep_point := map (fun w => Qltb epsilon_w (Qabs w)) weights in
     if negb (length keep_point =? length (coords_norm st))%nat
     then Py.Raise (Py.IndexError "boolean index did not match indexed array")
     else
     Py.Return
       (map (fun w => (w / 2 ^ Z.of_nat dim)%Q) (mask_select keep_point weights),
        mask_select keep_point (coords_norm st)))%py.

Section SparseGrid.
Context {amb : Ambient}.

(** [SparseGrid.calc_coords_weights], given what [calc_tensor_products]
    returned. *)
Definition calc_coords_weights (problem : Problem) (grid_type : list string)
  (dll_k : np.ndarray2) (dll_w : list Q) (self : Grid) : M Grid :=
  (merged <~ lift (merge_subgrids (dim problem) dll_k dll_w) ;;
   let self := with_weights (Some (fst merged)) self in
   let coords_norm :=
     fold_left (fun a i_dim => rescale_column problem grid_type i_dim a)
       (seq 0 (dim problem)) (snd merged) in
   self <~ set_coords_norm coords_norm self ;;
   set_coords (get_denormalized_coordinates problem coords_norm) self)%py.

End SparseGrid.


(** *** Facts about the merging loop *)

Lemma Qltb_lt (x y : Q) : Qltb x y = true <-> (x < y)%Q.
Proof.
  unfold Qltb. rewrite negb_true_iff. split.
  - intros H. apply Qnot_le_lt. intros Hle.
    apply Qle_bool_iff in Hle. congruence.
  - intros H. destruct (Qle_bool y x) eqn:E; [|reflexivity].
    apply Qle_bool_iff in E. exfalso. exact (Qlt_not_le _ _ H E).
Qed.

Lemma Qltb_ge (x y : Q) : Qltb x y = false <-> (y <= x)%Q.
Proof.
  unfold Qltb. rewrite negb_false_iff. apply Qle_bool_iff.
Qed.



Lemma l1_distance_refl (a : list Q) : (l1_distance a a == 0)%Q.
Proof.
  unfold l1_distance. induction a as [|x a IH];
    cbn [combine map sum fold_right fst snd]; [reflexivity|].
  fold (sum (map (fun xy => Qabs (fst xy - snd xy)) (combine a a))).
  rewrite IH. setoid_replace (x - x)%Q with 0%Q by ring. reflexivity.
Qed.

Lemma coincide_refl (a : list Q) : coincide a a = true.
Proof.
  unfold coincide. apply Qltb_lt. rewrite l1_distance_refl. reflexivity.
Qed.


(** A pass, entry by entry: an unassigned point within the tolerance of
    [first] takes the running number, every other entry stays. *)
Definition renumber (first : list Q) (no : Z) (kp : list Q * Z) : Z :=
  if (snd kp <? 0)%Z
  then (if coincide (fst kp) first then no else (-1)%Z)
  else snd kp.

Lemma mask_assign_pointwise (g : list Q -> Z) (ks : np.ndarray2) :
  forall ps : list Z,
    length ks = length ps ->
    mask_assign (map (fun p => (p <? 0)%Z) ps) ps
      (map g (mask_select (map (fun p => (p <? 0)%Z) ps) ks)) =
    map (fun kp => if (snd kp <? 0)%Z then g (fst kp) else snd kp)
      (combine ks ps).
Proof.
  induction ks as [|k ks IH]; intros [|p ps] L; try discriminate L.
  - reflexivity.
  - injection L as L. cbn [map mask_select mask_assign combine fst snd].
    destruct (p <? 0)%Z; cbn [map]; now rewrite IH.
Qed.

Lemma merge_pass_pointwise dll_k st first rest :
  length dll_k = length (point_number_list st) ->
  mask_select (map (fun p => (p <? 0)%Z) (point_number_list st)) dll_k
    = first :: rest ->
  merge_pass dll_k st =
  {| point_number_list :=
       map (renumber first (point_no st))
         (combine dll_k (point_number_list st));
     point_no := (point_no st + 1)%Z;
     coords_norm := coords_norm st ++ [first] |}.
Proof.
  intros L H. unfold merge_pass. rewrite H. f_equal.
  rewrite <- H.
  apply (mask_assign_pointwise
           (fun row => if coincide row first then point_no st else (-1)%Z)
           dll_k (point_number_list st) L).
Qed.

(** The first unassigned point. *)
Lemma first_not_found (ks : np.ndarray2) :
  forall ps : list Z,
    length ks = length ps ->
    existsb (fun p => (p <? 0)%Z) ps = true ->
    exists first rest p,
      mask_select (map (fun p => (p <? 0)%Z) ps) ks = first :: rest /\
      In (first, p) (combine ks ps) /\ (p <? 0)%Z = true.
Proof.
  induction ks as [|k ks IH]; intros [|p ps] L H; try discriminate.
  injection L as L. cbn [existsb map mask_select combine] in *.
  destruct (p <? 0)%Z eqn:E.
  - exists k, (mask_select (map (fun p => (p <? 0)%Z) ps) ks), p.
    repeat split; [now left | assumption].
  - destruct (IH ps L H) as (first & rest & p' & H1 & H2 & H3).
    exists first, rest, p'. repeat split; [assumption | now right | assumption].
Qed.

(** The number of unassigned points. *)
Definition not_found_count (ps : list Z) : nat :=
  length (filter (fun p => (p <? 0)%Z) ps).

Lemma renumber_count_le first no (ks : np.ndarray2) :
  (0 <= no)%Z ->
  forall ps : list Z,
    (not_found_count (map (renumber first no) (combine ks ps))
     <= not_found_count ps)%nat.
Proof.
  intros Hno. unfold not_found_count.
  induction ks as [|k ks IH]; intros [|p ps]; simpl; try lia.
  specialize (IH ps). unfold renumber at 1. cbn [fst snd].
  destruct (p <? 0)%Z eqn:E.
  - destruct (coincide k first).
    + destruct (Z.ltb_spec no 0); [lia|]. simpl. lia.
    + simpl. lia.
  - rewrite E. exact IH.
Qed.

Lemma renumber_count_lt no (ks : np.ndarray2) :
  (0 <= no)%Z ->
  forall (ps : list Z) first rest,
    mask_select (map (fun p => (p <? 0)%Z) ps) ks = first :: rest ->
    (not_found_count (map (renumber first no) (combine ks ps))
     < not_found_count ps)%nat.
Proof.
  intros Hno.
  induction ks as [|k ks IH]; intros [|p ps] first rest H; try discriminate H.
  cbn [map mask_select combine] in *.
  unfold not_found_count in *. cbn [map filter].
  unfold renumber at 1. cbn [fst snd].
  destruct (p <? 0)%Z eqn:E.
  - injection H as <- _. rewrite coincide_refl.
    destruct (Z.ltb_spec no 0); [lia|]. cbn [length].
    pose proof (@renumber_count_le k no ks Hno ps) as Hle.
    unfold not_found_count in Hle. lia.
  - rewrite E. apply (IH ps first rest H).
Qed.

Lemma not_found_count_zero (ps : list Z) :
  existsb (fun p => (p <? 0)%Z) ps = false <-> not_found_count ps = 0%nat.
Proof.
  unfold not_found_count. induction ps as [|p ps IH]; simpl; [tauto|].
  destruct (p <? 0)%Z; simpl; [split; discriminate | exact IH].
Qed.

(** Where a candidate point stands with respect to the merged points
    found so far: not yet assigned, and then within the tolerance of none
    of them; or assigned to the first of them it is within the tolerance
    of. *)
Definition placed (reps : np.ndarray2) (k : list Q) (p : Z) : Prop :=
  (p = (-1)%Z /\ forall r, In r reps -> coincide k r = false) \/
  (exists i r,
     p = Z.of_nat i /\ nth_error reps i = Some r /\ coincide k r = true /\
     forall i' r', (i' < i)%nat -> nth_error reps i' = Some r' ->
                   coincide k r' = false).

(** The invariant of the merging loop. *)
Record merge_inv (dll_k : np.ndarray2) (st : merge_state) : Prop := {
  inv_length : length dll_k = length (point_number_list st);
  inv_placed : forall k p,
      In (k, p) (combine dll_k (point_number_list st)) ->
      placed (coords_norm st) k p;
  inv_no : point_no st = Z.of_nat (length (coords_norm st));
  inv_reps : incl (coords_norm st) dll_k;
  inv_apart : forall i i' r r',
      (i' < i)%nat ->
      nth_error (coords_norm st) i = Some r ->
      nth_error (coords_norm st) i' = Some r' ->
      coincide r r' = false;
  inv_inhabited : forall i,
      (i < length (coords_norm st))%nat ->
      In (Z.of_nat i) (point_number_list st)
}.

Lemma combine_map_self {A B C} (f : A * B -> C) (ks : list A) :
  forall ps : list B,
    combine ks (map f (combine ks ps)) =
    map (fun kp => (fst kp, f kp)) (combine ks ps).
Proof.
  induction ks as [|k ks IH]; intros [|p ps]; cbn [combine map fst];
    try reflexivity.
  now rewrite IH.
Qed.

Lemma in_combine_some_l {A B} (ks : list A) :
  forall (ps : list B) p,
    length ks = length ps -> In p ps -> exists k, In (k, p) (combine ks ps).
Proof.
  induction ks as [|k ks IH]; intros [|q ps] p L H; try discriminate L;
    [contradiction|].
  injection L as L. destruct H as [->|H].
  - exists k. now left.
  - destruct (IH ps p L H) as [k' Hk']. exists k'. now right.
Qed.

Lemma placed_not_found reps k p :
  placed reps k p -> (p <? 0)%Z = true ->
  p = (-1)%Z /\ forall r, In r reps -> coincide k r = false.
Proof.
  intros [H|(i & r & -> & _)] Hneg; [exact H|].
  apply Z.ltb_lt in Hneg. lia.
Qed.

Lemma placed_found reps k p :
  placed reps k p -> (p <? 0)%Z = false ->
  exists i r,
    p = Z.of_nat i /\ nth_error reps i = Some r /\ coincide k r = true /\
    forall i' r', (i' < i)%nat -> nth_error reps i' = Some r' ->
                  coincide k r' = false.
Proof.
  intros [[-> _]|H] Hneg; [discriminate Hneg | exact H].
Qed.

Lemma merge_pass_inv dll_k st :
  merge_inv dll_k st ->
  any_not_found st = true ->
  merge_inv dll_k (merge_pass dll_k st) /\
  (not_found_count (point_number_list (merge_pass dll_k st))
   < not_found_count (point_number_list st))%nat.
Proof.
  intros [L Hpl Hno Hreps Hap Hin] Hany.
  destruct (first_not_found dll_k (point_number_list st) L Hany)
    as (first & rest & p0 & Hsel & Hfirst & Hp0).
  rewrite (merge_pass_pointwise dll_k st L Hsel).
  cbn [point_number_list point_no coords_norm].
  destruct (placed_not_found (Hpl _ _ Hfirst) Hp0) as [_ Hfar].
  assert (Hno0 : (0 <= point_no st)%Z) by lia.
  split; [|exact (@renumber_count_lt (point_no st) dll_k Hno0 _ _ _ Hsel)].
  constructor; cbn [point_number_list point_no coords_norm].
  - rewrite length_map, length_combine, <- L. now rewrite Nat.min_id.
  - intros k p' H. rewrite combine_map_self in H.
    apply in_map_iff in H. destruct H as ([k0 p] & E & H).
    cbn [fst] in E. injection E as -> <-.
    specialize (Hpl _ _ H). unfold renumber. cbn [fst snd].
    destruct (p <? 0)%Z eqn:Eneg.
    + destruct (placed_not_found Hpl Eneg) as [-> Hk].
      destruct (coincide k first) eqn:Ec.
      * right. exists (length (coords_norm st)), first.
        split; [exact Hno|]. split.
        { rewrite nth_error_app2 by lia. now rewrite Nat.sub_diag. }
        split; [exact Ec|].
        intros i' r' Hlt Hr'. rewrite nth_error_app1 in Hr' by lia.
        apply Hk. eapply nth_error_In. exact Hr'.
      * left. split; [reflexivity|]. intros r Hr.
        apply in_app_or in Hr. destruct Hr as [Hr|[<-|[]]]; auto.
    + destruct (placed_found Hpl Eneg) as (i & r & -> & Hr & Hc & Hmin).
      assert (Hi : (i < length (coords_norm st))%nat)
        by (apply nth_error_Some; congruence).
      right. exists i, r. split; [reflexivity|]. split.
      { now rewrite nth_error_app1 by lia. }
      split; [exact Hc|].
      intros i' r' Hlt Hr'. rewrite nth_error_app1 in Hr' by lia.
      exact (Hmin i' r' Hlt Hr').
  - rewrite length_app. cbn [length]. lia.
  - intros r Hr. apply in_app_or in Hr. destruct Hr as [Hr|[<-|[]]].
    + now apply Hreps.
    + eapply in_combine_l. exact Hfirst.
  - intros i i' r r' Hlt Hr Hr'.
    assert (Hi : (i < length (coords_norm st ++ [first]))%nat)
      by (apply nth_error_Some; congruence).
    rewrite length_app in Hi. cbn [length] in Hi.
    rewrite nth_error_app1 in Hr' by lia.
    destruct (Nat.eq_dec i (length (coords_norm st))) as [->|Hne].
    + rewrite nth_error_app2, Nat.sub_diag in Hr by lia.
      injection Hr as <-. apply Hfar. eapply nth_error_In. exact Hr'.
    + rewrite nth_error_app1 in Hr by lia. exact (Hap i i' r r' Hlt Hr Hr').
  - intros i Hi. rewrite length_app in Hi. cbn [length] in Hi.
    destruct (Nat.eq_dec i (length (coords_norm st))) as [->|Hne].
    + apply in_map_iff. exists (first, p0). split; [|exact Hfirst].
      unfold renumber. cbn [fst snd]. rewrite Hp0, coincide_refl.
      exact Hno.
    + assert (Hi' : (i < length (coords_norm st))%nat) by lia.
      destruct (in_combine_some_l dll_k _ _ L (Hin i Hi')) as [k Hk].
      apply in_map_iff. exists (k, Z.of_nat i). split; [|exact Hk].
      unfold renumber. cbn [fst snd].
      destruct (Z.ltb_spec (Z.of_nat i) 0); [lia | reflexivity].
Qed.

(** One pass per candidate point is enough: the loop ends with every
    point assigned, and with the invariant. *)
Lemma merge_loop_done dll_k :
  forall fuel st,
    merge_inv dll_k st ->
    (not_found_count (point_number_list st) <= fuel)%nat ->
    merge_inv dll_k (merge_loop fuel dll_k st) /\
    any_not_found (merge_loop fuel dll_k st) = false.
Proof.
  induction fuel as [|fuel IH]; intros st Hinv Hc; cbn [merge_loop].
  - assert (H0 : any_not_found st = false).
    { apply not_found_count_zero. lia. }
    rewrite H0. now split.
  - destruct (any_not_found st) eqn:Hany; [|now split].
    destruct (merge_pass_inv Hinv Hany) as [Hinv' Hlt].
    apply IH; [exact Hinv' | lia].
Qed.

Lemma merge_inv_start dll_k (n : nat) :
  length dll_k = n ->
  merge_inv dll_k {| point_number_list := repeat (-1)%Z n;
                     point_no := 0; coords_norm := [] |}.
Proof.
  intros L. constructor; cbn [point_number_list point_no coords_norm].
  - now rewrite repeat_length.
  - intros k p H. apply in_combine_r in H. apply repeat_spec in H.
    left. split; [exact H|]. intros r [].
  - reflexivity.
  - intros r [].
  - intros i i' r r' _ H. now destruct i.
  - intros i Hi. cbn [length] in Hi. lia.
Qed.

(** *** What the merge computes *)






Lemma mask_select_map_self {A} (f : A -> bool) (l : list A) :
  mask_select (map f l) l = filter f l.
Proof.
  induction l as [|x l IH]; cbn [map mask_select filter]; [reflexivity|].
  destruct (f x); now rewrite IH.
Qed.



Lemma in_combine_some_r {A B} (ks : list A) :
  forall (ps : list B) k,
    length ks = length ps -> In k ks -> exists p, In (k, p) (combine ks ps).
Proof.
  induction ks as [|k0 ks IH]; intros [|q ps] k L H; try discriminate L;
    [contradiction|].
  injection L as L. destruct H as [->|H].
  - exists q. now left.
  - destruct (IH ps k L H) as [p' Hp']. exists p'. now right.
Qed.

Lemma fold_left_max (l : list Z) :
  forall x m : Z,
    (x <= m)%Z -> (forall p, In p l -> (p <= m)%Z) -> x = m \/ In m l ->
    fold_left Z.max l x = m.
Proof.
  induction l as [|y l IH]; intros x m Hx Hl Hm; cbn [fold_left].
  - destruct Hm as [Hm|[]]. exact Hm.
  - assert (Hy : (y <= m)%Z) by (apply Hl; now left).
    apply IH.
    + lia.
    + intros p Hp. apply Hl. now right.
    + destruct Hm as [->|[->|Hm]]; [left; lia | left; lia | now right].
Qed.

Lemma amax_spec (l : list Z) (m : Z) :
  In m l -> (forall p, In p l -> (p <= m)%Z) -> amax l = Py.Return m.
Proof.
  intros Hm Hl. destruct l as [|x l]; [contradiction|].
  cbn [amax]. f_equal. apply fold_left_max.
  - apply Hl. now left.
  - intros p Hp. apply Hl. now right.
  - destruct Hm as [->|Hm]; [now left | now right].
Qed.



(** *** The total weight *)

Lemma sum_map_ext {A} (f g : A -> Q) (l : list A) :
  (forall x, In x l -> (f x == g x)%Q) ->
  (sum (map f l) == sum (map g l))%Q.
Proof.
  induction l as [|x l IH]; intros H; cbn [map sum fold_right];
    [reflexivity|].
  fold (sum (map f l)). fold (sum (map g l)).
  rewrite (H x) by now left. rewrite IH; [reflexivity|].
  intros y Hy. apply H. now right.
Qed.

Lemma sum_map_plus {A} (f g : A -> Q) (l : list A) :
  (sum (map (fun x => f x + g x) l) == sum (map f l) + sum (map g l))%Q.
Proof.
  induction l as [|x l IH]; cbn [map sum fold_right]; [ring|].
  fold (sum (map (fun x => f x + g x) l)).
  fold (sum (map f l)). fold (sum (map g l)). rewrite IH. ring.
Qed.

Lemma sum_map_zero {A} (l : list A) : (sum (map (fun _ => 0) l) == 0)%Q.
Proof.
  induction l as [|x l IH]; cbn [map sum fold_right]; [reflexivity|].
  fold (sum (map (fun _ : A => 0%Q) l)). rewrite IH. ring.
Qed.

Lemma sum_div (c : Q) (l : list Q) :
  (sum (map (fun w => w / c) l) == sum l / c)%Q.
Proof.
  induction l as [|x l IH]; cbn [map sum fold_right].
  - unfold Qdiv. ring.
  - fold (sum (map (fun w => w / c) l)). fold (sum l). rewrite IH.
    unfold Qdiv. ring.
Qed.

Lemma sum_filter_split (f : Q -> bool) (l : list Q) :
  (sum (filter f l) + sum (filter (fun w => negb (f w)) l) == sum l)%Q.
Proof.
  induction l as [|x l IH]; cbn [filter sum fold_right]; [ring|].
  fold (sum l). destruct (f x); cbn [negb sum fold_right];
    fold (sum (filter f l));
    fold (sum (filter (fun w => negb (f w)) l)); rewrite <- IH; ring.
Qed.

(** A weight counted under the number it carries is counted once. *)
Lemma sum_indicator (p : Z) (w : Q) (l : list nat) :
  NoDup l ->
  (sum (map (fun i => if (Z.of_nat i =? p)%Z then w else 0) l)
   == if existsb (fun i => (Z.of_nat i =? p)%Z) l then w else 0)%Q.
Proof.
  induction 1 as [|i l Hi Hl IH]; cbn [map sum fold_right existsb];
    [reflexivity|].
  fold (sum (map (fun i => if (Z.of_nat i =? p)%Z then w else 0%Q) l)).
  rewrite IH. destruct (Z.eqb_spec (Z.of_nat i) p) as [E|E]; cbn [orb].
  - assert (N : existsb (fun i => (Z.of_nat i =? p)%Z) l = false).
    { destruct (existsb _ l) eqn:X; [|reflexivity].
      apply existsb_exists in X. destruct X as (j & Hj & Ej).
      apply Z.eqb_eq in Ej. exfalso. apply Hi.
      replace i with j by lia. exact Hj. }
    rewrite N. ring.
  - ring.
Qed.

Lemma sum_by_number (n : nat) :
  forall (pl : list Z) (ws : list Q),
    length pl = length ws ->
    (forall p, In p pl -> (0 <= p < Z.of_nat n)%Z) ->
    (sum (map (fun i => sum (mask_select
                               (map (Z.eqb (Z.of_nat i)) pl) ws))
            (seq 0 n))
     == sum ws)%Q.
Proof.
  induction pl as [|p pl IH]; intros [|w ws] L Hp; try discriminate L.
  - cbn [map mask_select sum fold_right]. apply sum_map_zero.
  - cbn [map mask_select].
    rewrite (sum_map_ext
               (fun i => sum (if (Z.of_nat i =? p)%Z
                              then w :: mask_select
                                          (map (Z.eqb (Z.of_nat i)) pl) ws
                              else mask_select
                                     (map (Z.eqb (Z.of_nat i)) pl) ws))
               (fun i => (if (Z.of_nat i =? p)%Z then w else 0)
                         + sum (mask_select
                                  (map (Z.eqb (Z.of_nat i)) pl) ws))).
    2:{ intros i _. cbv beta. destruct (Z.of_nat i =? p)%Z;
          cbn [sum fold_right]; unfold sum; ring. }
    rewrite sum_map_plus, IH.
    + rewrite sum_indicator by apply seq_NoDup.
      assert (X : existsb (fun i => (Z.of_nat i =? p)%Z) (seq 0 n) = true).
      { apply existsb_exists. exists (Z.to_nat p).
        specialize (Hp p (or_introl eq_refl)).
        split; [apply in_seq; lia | apply Z.eqb_eq; lia]. }
      rewrite X. cbn [sum fold_right]. reflexivity.
    + now injection L.
    + intros q Hq. apply Hp. now right.
Qed.

Lemma length_mask_select_same {A B} (m : list bool) :
  forall (a : list A) (b : list B),
    length a = length b ->
    length (mask_select m a) = length (mask_select m b).
Proof.
  induction m as [|x m IH]; intros [|y a] [|z b] L; try discriminate L;
    cbn [mask_select]; try reflexivity.
  destruct x; cbn [length]; rewrite (IH a b); auto.
Qed.

Lemma incl_mask_select {A} (m : list bool) :
  forall a : list A, incl (mask_select m a) a.
Proof.
  induction m as [|x m IH]; intros [|y a]; cbn [mask_select];
    try (intros z []).
  destruct x.
  - intros z [<-|Hz]; [now left | right; now apply IH].
  - intros z Hz. right. now apply IH.
Qed.

Lemma length_filter_split {A} (f : A -> bool) (l : list A) :
  (length (filter f l) + length (filter (fun x => negb (f x)) l)
   = length l)%nat.
Proof.
  induction l as [|x l IH]; cbn [filter]; [reflexivity|].
  destruct (f x); cbn [negb length]; lia.
Qed.

Lemma sum_abs_le (e : Q) (l : list Q) :
  Forall (fun w => (Qabs w <= e)%Q) l ->
  (Qabs (sum l) <= inject_Z (Z.of_nat (length l)) * e)%Q.
Proof.
  induction 1 as [|x l Hx Hl IH]; cbn [sum fold_right length].
  - cbn. rewrite Qmult_0_l. apply Qle_refl.
  - fold (sum l). rewrite Nat2Z.inj_succ. unfold Z.succ.
    rewrite inject_Z_plus.
    eapply Qle_trans; [apply Qabs_triangle|].
    setoid_replace ((inject_Z (Z.of_nat (length l)) + inject_Z 1) * e)%Q
      with (e + inject_Z (Z.of_nat (length l)) * e)%Q by ring.
    now apply Qplus_le_compat.
Qed.

(** The merged points are points of the candidates, one number each: there
    are no more of them than candidates. *)
Lemma merged_points_bound dll_k st :
  merge_inv dll_k st -> (length (coords_norm st) <= length dll_k)%nat.
Proof.
  intros [L _ _ _ _ Hin]. rewrite L.
  rewrite <- (length_seq (length (coords_norm st)) 0) at 1.
  rewrite <- (length_map Z.of_nat).
  apply NoDup_incl_length.
  - apply Finite.Injective_map_NoDup; [|apply seq_NoDup].
    intros x y H. lia.
  - intros p Hp. apply in_map_iff in Hp. destruct Hp as (i & <- & Hi).
    apply Hin. apply in_seq in Hi. lia.
Qed.

(** X16. Merging conserves the weight up to what the weight test drops.
    For at least one candidate point (and as many weights, and [dim] not
    zero) the merge returns one weight per point it returns, every returned
    point is one of the candidates, and the returned weights add up to the
    total weight of the candidates over [2^dim] up to [1e-8 / dim / 2^dim]
    for each candidate that is not returned. *)
Theorem merge_subgrids_conserves_weight dim dll_k dll_w :
  dim <> 0%nat -> dll_k <> [] -> length dll_k = length dll_w ->
  exists weights coords,
    merge_subgrids dim dll_k dll_w = Py.Return (weights, coords) /\
    length weights = length coords /\
    incl coords dll_k /\
    (length coords <= length dll_k)%nat /\
    (Qabs (sum weights - sum dll_w / 2 ^ Z.of_nat dim)
     <= inject_Z (Z.of_nat (length dll_k - length coords))
        * (1E-8 / inject_Z (Z.of_nat dim)) / 2 ^ Z.of_nat dim)%Q.
Proof.
  intros Hdim Hne L.
  pose (st0 := {| point_number_list := repeat (-1)%Z (length dll_w);
                  point_no := 0; coords_norm := [] |}).
  destruct (@merge_loop_done dll_k (length dll_w) st0) as [Hinv Hany].
  { apply merge_inv_start. exact L. }
  { unfold not_found_count, st0. cbn [point_number_list].
    etransitivity; [apply filter_length_le|]. now rewrite repeat_length. }
  set (st := merge_loop (length dll_w) dll_k st0) in *.
  pose proof (merged_points_bound Hinv) as Hbound.
  pose proof Hinv as [L' Hpl Hno Hreps Hap Hin].
  assert (Hfound : forall p, In p (point_number_list st) ->
             (0 <= p < Z.of_nat (length (coords_norm st)))%Z).
  { intros p Hp.
    destruct (in_combine_some_l dll_k _ _ L' Hp) as [k Hkp].
    assert (Hp0 : (p <? 0)%Z = false).
    { unfold any_not_found in Hany.
      destruct (p <? 0)%Z eqn:E; [|reflexivity].
      rewrite <- Hany. symmetry. apply existsb_exists.
      exists p. split; [exact Hp | exact E]. }
    destruct (placed_found (Hpl _ _ Hkp) Hp0) as (i & r & -> & H2 & _).
    assert (i < length (coords_norm st))%nat
      by (apply nth_error_Some; congruence).
    lia. }
  assert (Hpos : (0 < length (coords_norm st))%nat).
  { destruct dll_k as [|k0 ks]; [contradiction|].
    destruct (in_combine_some_r (k0 :: ks) (point_number_list st) k0 L')
      as [p Hp]; [now left|].
    apply in_combine_r in Hp. specialize (Hfound p Hp). lia. }
  unfold merge_subgrids. fold st0. fold st.
  rewrite L, Nat.eqb_refl. cbn [negb andb].
  rewrite (@amax_spec (point_number_list st)
             (Z.of_nat (length (coords_norm st) - 1))).
  2:{ apply Hin. lia. }
  2:{ intros p Hp. specialize (Hfound p Hp). lia. }
  cbn [Py.bind].
  destruct (Nat.eqb_spec dim 0) as [E|_]; [contradiction|].
  replace (Z.of_nat (length (coords_norm st) - 1) + 1)%Z
    with (Z.of_nat (length (coords_norm st))) by lia.
  unfold Py.range. rewrite Nat2Z.id.
  set (W := map (fun i_point => sum (mask_select
                                       (map (Z.eqb i_point)
                                          (point_number_list st)) dll_w))
              (map Z.of_nat (seq 0 (length (coords_norm st))))).
  assert (LW : length W = length (coords_norm st))
    by (unfold W; now rewrite !length_map, length_seq).
  set (keep := fun w => Qltb (1E-8 / inject_Z (Z.of_nat dim)) (Qabs w)).
  rewrite (length_map keep W), LW, Nat.eqb_refl. cbn [negb].
  assert (Hc : (0 < 2 ^ Z.of_nat dim)%Q) by (apply Qpower_0_lt; reflexivity).
  assert (He : (0 <= 1E-8 / inject_Z (Z.of_nat dim))%Q).
  { apply Qle_shift_div_l.
    - change 0%Q with (inject_Z 0). rewrite <- Zlt_Qlt. lia.
    - rewrite Qmult_0_l. discriminate. }
  assert (Lk : length (mask_select (map keep W) (coords_norm st))
               = length (filter keep W)).
  { rewrite <- (mask_select_map_self keep W).
    apply length_mask_select_same. now symmetry. }
  exists (map (fun w => (w / 2 ^ Z.of_nat dim)%Q)
            (mask_select (map keep W) W)),
    (mask_select (map keep W) (coords_norm st)).
  split; [reflexivity|]. split; [|split; [|split]].
  - rewrite length_map. now apply length_mask_select_same.
  - intros k Hk. apply Hreps. eapply incl_mask_select. exact Hk.
  - rewrite Lk. etransitivity; [apply filter_length_le|]. lia.
  - rewrite sum_div, mask_select_map_self, Lk.
    set (D := filter (fun w => negb (keep w)) W).
    assert (HW : (sum W == sum dll_w)%Q).
    { unfold W. rewrite map_map.
      apply sum_by_number; [congruence | exact Hfound]. }
    assert (HD : (Qabs (sum D) <= inject_Z (Z.of_nat (length D))
                                  * (1E-8 / inject_Z (Z.of_nat dim)))%Q).
    { apply sum_abs_le. apply Forall_forall. intros w Hw.
      apply filter_In in Hw. destruct Hw as [_ Hw].
      apply negb_true_iff in Hw. unfold keep in Hw. now apply Qltb_ge in Hw. }
    assert (LD : (length D <= length dll_k - length (filter keep W))%nat).
    { pose proof (length_filter_split keep W) as S. fold D in S. lia. }
    setoid_replace (sum (filter keep W) / 2 ^ Z.of_nat dim
                    - sum dll_w / 2 ^ Z.of_nat dim)%Q
      with (- sum D * / 2 ^ Z.of_nat dim)%Q.
    2:{ rewrite <- HW, <- (sum_filter_split keep W). fold D.
        unfold Qdiv, Qminus. ring. }
    rewrite Qabs_Qmult, Qabs_opp.
    rewrite (Qabs_pos (/ 2 ^ Z.of_nat dim))
      by (apply Qinv_le_0_compat, Qlt_le_weak, Hc).
    unfold Qdiv at 1. apply Qmult_le_compat_r;
      [|apply Qinv_le_0_compat, Qlt_le_weak, Hc].
    eapply Qle_trans; [exact HD|].
    apply Qmult_le_compat_r; [|exact He].
    rewrite <- Zle_Qle. lia.
Qed.

Lemma merge_subgrids_conserves_weight_witness :
  exists weights coords,
    merge_subgrids 2 [[0%Q; 1%Q]; [1%Q; 0%Q]; [0%Q; 1%Q]] [1%Q; 2%Q; (-1)%Q]
      = Py.Return (weights, coords) /\
    length weights = length coords /\
    (Qabs (sum weights - sum [1%Q; 2%Q; (-1)%Q] / 2 ^ 2)
     <= inject_Z (Z.of_nat (3 - length coords)) * (1E-8 / 2) / 2 ^ 2)%Q.
Proof.
  destruct (@merge_subgrids_conserves_weight 2
              [[0%Q; 1%Q]; [1%Q; 0%Q]; [0%Q; 1%Q]] [1%Q; 2%Q; (-1)%Q])
    as (weights & coords & H1 & H2 & _ & _ & H5).
  - discriminate.
  - discriminate.
  - reflexivity.
  - exists weights, coords. split; [exact H1|].
    split; [exact H2 | exact H5].
Defined.

(** *** The order of enumeration *)

















(** ** Grid.py: the shape of a random grid, and the two coordinate maps *)

(** One cell of [Grid.get_normalized_coordinates]: the two assignments of
    the beta branch in one, and the normal branch; other columns keep the
    zero of [np.zeros(coords.shape)].  A division by zero (equal limits, or
    a standard deviation of zero), where numpy returns inf or nan, is
    outside the model. *)
Definition normalize_cell (p : RandomParameter) (x : Q) : Q :=
  let c := 0%Q in
  let c := if is_beta p
           then ((x - fst (pdf_limits p))
                 / (snd (pdf_limits p) - fst (pdf_limits p)) * 2.0 - 1)%Q
           else c in
  let c := if is_norm p
           then ((x - fst (pdf_shape p)) / snd (pdf_shape p))%Q
           else c in
  c.

Fixpoint normalize_row (problem : Problem) (row : list Q) : list Q :=
  match problem, row with
  | p :: problem', x :: row' =>
      normalize_cell p x :: normalize_row problem' row'
  | _, _ => []
  end.

(** [Grid.get_normalized_coordinates], for [coords] with up to
    [problem.dim] columns *)
Definition get_normalized_coordinates (problem : Problem)
  (coords : np.ndarray2) : np.ndarray2 :=
  map (normalize_row problem) coords.

(** An input whose two maps do not divide by zero: a beta input with two
    different limits, or a normal input with a standard deviation that is
    not zero. *)
Definition invertible (p : RandomParameter) : Prop :=
  (is_beta p = true /\ ~ (snd (pdf_limits p) == fst (pdf_limits p))%Q)
  \/ (is_norm p = true /\ ~ (snd (pdf_shape p) == 0)%Q).

(** Equality of two arrays, entry by entry, as rational numbers. *)
Definition allclose (a b : np.ndarray2) : Prop :=
  Forall2 (Forall2 Qeq) a b.

Lemma Qminus_zero_eq (a b : Q) : (a - b == 0)%Q -> (a == b)%Q.
Proof.
  intros H. setoid_replace a with ((a - b) + b)%Q by ring.
  rewrite H. ring.
Qed.

Lemma normalize_denormalize_cell p x :
  invertible p -> (normalize_cell p (denormalize_cell p x) == x)%Q.
Proof.
  intros [[Hb Hne]|[Hn Hne]]; unfold normalize_cell, denormalize_cell.
  - rewrite Hb, (beta_not_norm p Hb). field.
    intros H. apply Hne. apply Qminus_zero_eq. exact H.
  - rewrite Hn. destruct (is_beta p) eqn:Hb.
    + rewrite (beta_not_norm p Hb) in Hn. discriminate Hn.
    + field. exact Hne.
Qed.

Lemma denormalize_normalize_cell p x :
  invertible p -> (denormalize_cell p (normalize_cell p x) == x)%Q.
Proof.
  intros [[Hb Hne]|[Hn Hne]]; unfold normalize_cell, denormalize_cell.
  - rewrite Hb, (beta_not_norm p Hb). field.
    intros H. apply Hne. apply Qminus_zero_eq. exact H.
  - rewrite Hn. destruct (is_beta p) eqn:Hb.
    + rewrite (beta_not_norm p Hb) in Hn. discriminate Hn.
    + field. exact Hne.
Qed.

Lemma normalize_denormalize_row problem :
  Forall invertible problem ->
  forall row, (length row <= dim problem)%nat ->
    Forall2 Qeq (normalize_row problem (denormalize_row problem row)) row /\
    Forall2 Qeq (denormalize_row problem (normalize_row problem row)) row.
Proof.
  unfold dim. induction 1 as [|p problem Hp Hrest IH]; intros row Hlen.
  - destruct row; [split; constructor | cbn in Hlen; lia].
  - destruct row as [|x row]; [split; constructor|].
    cbn [length] in Hlen. destruct (IH row) as [A B]; [lia|].
    split; cbn [denormalize_row normalize_row]; constructor;
      auto using normalize_denormalize_cell, denormalize_normalize_cell.
Qed.

(** X8. The two coordinate maps invert each other.  For a problem whose
    inputs are all beta inputs with two different limits or normal inputs
    with a standard deviation that is not zero, and an array with at most
    [dim] columns, normalising the denormalised array gives the array back,
    and so does denormalising the normalised one (in exact arithmetic). *)
Theorem coordinates_round_trip (problem : Problem) (a : np.ndarray2) :
  Forall invertible problem ->
  Forall (fun row => (length row <= dim problem)%nat) a ->
  allclose
    (get_normalized_coordinates problem (get_denormalized_coordinates problem a))
    a /\
  allclose
    (get_denormalized_coordinates problem (get_normalized_coordinates problem a))
    a.
Proof.
  intros Hp Ha. unfold allclose, get_normalized_coordinates,
    get_denormalized_coordinates.
  induction Ha as [|row a Hrow Ha IH]; [split; constructor|].
  destruct IH as [A B].
  destruct (normalize_denormalize_row Hp row Hrow) as [C D].
  split; cbn [map]; constructor; assumption.
Qed.

Definition example_inputs : Problem := [beta_unit; normal_std].

Lemma coordinates_round_trip_witness :
  allclose
    (get_normalized_coordinates example_inputs
       (get_denormalized_coordinates example_inputs [[0.5; 2]; [-1; 0]]))
    [[0.5; 2]; [-1; 0]].
Proof.
  apply (@coordinates_round_trip example_inputs [[0.5; 2]; [-1; 0]]).
  - constructor; [|constructor; [|constructor]].
    + left. split; [reflexivity | intros H; vm_compute in H; discriminate H].
    + right. split; [reflexivity | intros H; vm_compute in H; discriminate H].
  - constructor; [cbn; lia | constructor; [cbn; lia | constructor]].
Defined.

Section Shape.
Context {amb : Ambient}.











End Shape.


End Grid.

(** ** Algorithm.py: a pass of the adaptive-sampling loop of RegAdaptive.run *)

Module Algorithm.

(** [np.ceil] *)
Definition ceil (x : Q) : Q := inject_Z (Qceiling x).

(** The options a pass reads. *)
Record options : Type := {
  adaptive_sampling : bool;
  matrix_ratio : Q;
  gradient_enhanced : bool;
  gradient_calculation : string
}.

Section AdaptiveSampling.
Context {amb : Ambient}.

(** The sum and the product of two doubles, rounded as the machine rounds
    them.  The embedding takes both as given: a size computed with them is
    the size the code computes, whatever the rounding does. *)
Variable float_add : Q -> Q -> Q.
Variable float_mul : Q -> Q -> Q.

(** The rows of [res] and the gradient array are opaque here;
    [gradient_rows] is [gradient_results.shape[0]]. *)
Variable result : Type.
Variable gradient : Type.
Variable gradient_rows : gradient -> Z.

Variable problem : Problem.
Variable opt : options.

(** [Computation.run] is not part of the sources: a call
    [com.run(model, problem, coords, coords_norm, ...)] is taken as it
    comes, with the two arrays it is passed; it may raise. *)
Variable com_run : np.ndarray2 -> np.ndarray2 -> M (list result).

(** The local variables of [run] a pass reads or writes, with the
    attributes [grid] and [basis.n_basis] of [gpc]. *)
Record vars : Type := Vars {
  i_grid : Z;
  extended_basis : bool;
  first_iter : bool;
  add_samples : bool;
  grid : Grid.Grid;
  n_basis : Z;
  res : option (list result);
  grad_res_3D : option gradient
}.

Definition set_i_grid (v : Z) (st : vars) : vars :=
  Vars v (extended_basis st) (first_iter st) (add_samples st) (grid st)
    (n_basis st) (res st) (grad_res_3D st).

Definition set_add_samples (v : bool) (st : vars) : vars :=
  Vars (i_grid st) (extended_basis st) (first_iter st) v (grid st)
    (n_basis st) (res st) (grad_res_3D st).

Definition set_grid (v : Grid.Grid) (st : vars) : vars :=
  Vars (i_grid st) (extended_basis st) (first_iter st) (add_samples st) v
    (n_basis st) (res st) (grad_res_3D st).

Definition set_res (v : option (list result)) (st : vars) : vars :=
  Vars (i_grid st) (extended_basis st) (first_iter st) (add_samples st)
    (grid st) (n_basis st) v (grad_res_3D st).

Definition set_grad_res_3D (v : option gradient) (st : vars) : vars :=
  Vars (i_grid st) (extended_basis st) (first_iter st) (add_samples st)
    (grid st) (n_basis st) (res st) v.

Definition delta_samples : Q := 5e-2.

(** The new sample size of a pass; [gpc.grid.n_grid] is read in the first
    two branches only. *)
Definition n_grid_new (st : vars) : M Z :=
  (if extended_basis st && adaptive_sampling opt then
     Grid.the "n_grid" (Grid.n_grid (grid st))
   else if adaptive_sampling opt && negb (first_iter st) then
     n_grid <~ Grid.the "n_grid" (Grid.n_grid (grid st)) ;;
     ret (Py.int (ceil (float_add (inject_Z n_grid)
                          (float_mul delta_samples (inject_Z (n_basis st))))))
   else
     ret (Py.int (ceil (float_mul (inject_Z (n_basis st))
                          (matrix_ratio opt)))))%py.

(** [Algorithm.get_gradient(grid, results, gradient_results)].  The grid
    classes of [Grid.py] have no method [create_gradient_grid]: the call
    raises, and the statements after it are never reached. *)
Definition get_gradient (results : list result)
  (gradient_results : option gradient) : M (option gradient) :=
  let n_gradient_results :=
    match gradient_results with
    | Some g => gradient_rows g
    | None => 0%Z
    end in
  if (n_gradient_results <? Z.of_nat (length results))%Z then
    if String.eqb (gradient_calculation opt) "standard_forward" then
      raise (Py.AttributeError
               "'RandomGrid' object has no attribute 'create_gradient_grid'")
    else ret gradient_results
  else ret gradient_results.

(** What a pass does with the results of its model runs: they are stacked
    under [res], the gradient is taken, and [i_grid] moves to the end of
    the grid. *)
Definition record_results (st : vars) (res_new : list result) : M vars :=
  (r <~ (if (i_grid st =? 0)%Z then ret res_new
         else match res st with
              | Some r => ret (r ++ res_new)
              | None => raise (Py.UnboundLocalError "res")
              end) ;;
   let st := set_res (Some r) st in
   g <~ (if gradient_enhanced opt
         then get_gradient r (grad_res_3D st)
         else ret (grad_res_3D st)) ;;
   let st := set_grad_res_3D g st in
   c <~ Grid.the "coords" (Grid._coords (grid st)) ;;
   ret (set_i_grid (np.shape0 c) st))%py.

(** The model runs of a pass: on the rows of the grid from [i_grid] on
    ([i_grid] is never negative). *)
Definition evaluate_new_points (st : vars) : M vars :=
  (c <~ Grid.the "coords" (Grid._coords (grid st)) ;;
   cn <~ Grid.the "coords_norm" (Grid._coords_norm (grid st)) ;;
   res_new <~ com_run (skipn (Z.to_nat (i_grid st)) c)
                (skipn (Z.to_nat (i_grid st)) cn) ;;
   record_results st res_new)%py.

(** One pass of the adaptive-sampling loop, from its first statement to
    [i_grid = gpc.grid.coords.shape[0]]; [gpc.update_gpc_matrix()] and what
    follows it are not part of the embedding. *)
Definition sampling_pass (st : vars) : M vars :=
  (let st := if negb (adaptive_sampling opt)
             then set_add_samples false st else st in
   n_grid_new <~ n_grid_new st ;;
   if (i_grid st <? n_grid_new)%Z || extended_basis st then
     if (i_grid st <? n_grid_new)%Z then
       g <~ Grid.extend_random_grid problem (grid st) (inject_Z n_grid_new)
              None ;;
       let st := set_grid g st in
       evaluate_new_points st
     else ret st
   else ret st)%py.

(** *** Facts about a pass *)

Lemma set_grid_same (st : vars) : set_grid (grid st) st = st.
Proof. now destruct st. Qed.

(** The model runs leave the grid as it is. *)
Lemma record_results_grid st res_new w st' w' :
  record_results st res_new w = (Py.Return st', w') -> grid st' = grid st.
Proof.
  unfold record_results. intros H. unfold mbind in H.
  destruct ((if (i_grid st =? 0)%Z then ret res_new
             else match res st with
                  | Some r => ret (r ++ res_new)
                  | None => raise (Py.UnboundLocalError "res")
                  end) w) as [[r|e] w1]; [|discriminate H].
  destruct ((if gradient_enhanced opt
             then get_gradient r (grad_res_3D (set_res (Some r) st))
             else ret (grad_res_3D (set_res (Some r) st))) w1)
    as [[g|e] w2]; [|discriminate H].
  destruct (Grid.the "coords"
              (Grid._coords
                 (grid (set_grad_res_3D g (set_res (Some r) st)))) w2)
    as [[c|e] w3]; [|discriminate H].
  unfold ret in H. injection H as <- _. reflexivity.
Qed.

Lemma evaluate_new_points_grid st w st' w' :
  evaluate_new_points st w = (Py.Return st', w') -> grid st' = grid st.
Proof.
  unfold evaluate_new_points. intros H. unfold mbind in H.
  destruct (Grid.the "coords" (Grid._coords (grid st)) w)
    as [[c|e] w1]; [|discriminate H].
  destruct (Grid.the "coords_norm" (Grid._coords_norm (grid st)) w1)
    as [[cn|e] w2]; [|discriminate H].
  destruct (com_run (skipn (Z.to_nat (i_grid st)) c)
              (skipn (Z.to_nat (i_grid st)) cn) w2)
    as [[res_new|e] w3]; [|discriminate H].
  exact (@record_results_grid st res_new w3 st' w' H).
Qed.

(** The size a pass over a grid of [n] points aims at. *)
Definition target_size (st : vars) (n : nat) : Z :=
  if extended_basis st && adaptive_sampling opt then Z.of_nat n
  else if adaptive_sampling opt && negb (first_iter st) then
    Py.int (ceil (float_add (inject_Z (Z.of_nat n))
                    (float_mul delta_samples (inject_Z (n_basis st)))))
  else Py.int (ceil (float_mul (inject_Z (n_basis st)) (matrix_ratio opt))).

Lemma n_grid_new_run st n c cn ids w :
  Grid.sized (grid st) n c cn ids ->
  n_grid_new st w = (Py.Return (target_size st n), w).
Proof.
  intros Hs. unfold n_grid_new, target_size.
  rewrite (Grid.sized_n_grid Hs). cbn [Grid.the].
  destruct (extended_basis st && adaptive_sampling opt); [reflexivity|].
  destruct (adaptive_sampling opt && negb (first_iter st)); [|reflexivity].
  erewrite Grid.mbind_return by reflexivity. reflexivity.
Qed.

(** The pass on a grid of [n] points. *)
Lemma sampling_pass_run st n c cn ids w :
  Grid.sized (grid st) n c cn ids ->
  let st1 := if negb (adaptive_sampling opt)
             then set_add_samples false st else st in
  sampling_pass st w =
  (if (i_grid st <? target_size st n)%Z then
     (g <~ Grid.extend_random_grid problem (grid st)
             (inject_Z (target_size st n)) None ;;
      evaluate_new_points (set_grid g st1))%py w
   else (Py.Return st1, w)).
Proof.
  intros Hs st1. unfold sampling_pass. fold st1.
  assert (G : grid st1 = grid st)
    by (unfold st1; now destruct (negb (adaptive_sampling opt))).
  assert (I : i_grid st1 = i_grid st)
    by (unfold st1; now destruct (negb (adaptive_sampling opt))).
  assert (T : target_size st1 n = target_size st n)
    by (unfold st1; now destruct (negb (adaptive_sampling opt))).
  assert (Hs1 : Grid.sized (grid st1) n c cn ids) by (now rewrite G).
  erewrite Grid.mbind_return
    by exact (@n_grid_new_run st1 n c cn ids w Hs1).
  rewrite T, I, G.
  destruct (i_grid st <? target_size st n)%Z; cbn [orb]; [reflexivity|].
  now destruct (extended_basis st1).
Qed.

(** C2.  In a pass of the adaptive-sampling loop over a grid of [n] points
    of which [i_grid] are evaluated, the new sample size is computed
    without raising, and:
    - with adaptive sampling and the basis just extended it is [n]: no
      point is generated, the grid and the generators stay as they are, and
      the model is run on the points of the grid not yet evaluated, if
      there are any, and else not at all;
    - with adaptive sampling, the basis not just extended and not in the
      first iteration, it is [ceil(n + 0.05 * n_basis)];
    - without adaptive sampling it is [ceil(n_basis * matrix_ratio)];
    and the grid of a pass that returns has the larger of [n] and the new
    sample size as its number of points, the [n] old ones in front. *)
Theorem sampling_target st n c cn ids w :
  Grid.sized (grid st) n c cn ids ->
  (0 <= i_grid st <= Z.of_nat n)%Z ->
  exists target,
    n_grid_new st w = (Py.Return target, w) /\
    (adaptive_sampling opt = true -> extended_basis st = true ->
     target = Z.of_nat n /\
     (i_grid st = Z.of_nat n -> sampling_pass st w = (Py.Return st, w)) /\
     ((i_grid st < Z.of_nat n)%Z ->
      sampling_pass st w = evaluate_new_points st w)) /\
    (adaptive_sampling opt = true -> extended_basis st = false ->
     first_iter st = false ->
     target =
     Py.int (ceil (float_add (inject_Z (Z.of_nat n))
                     (float_mul 5e-2 (inject_Z (n_basis st)))))) /\
    (adaptive_sampling opt = false ->
     target =
     Py.int (ceil (float_mul (inject_Z (n_basis st)) (matrix_ratio opt)))) /\
    (forall st' w',
       sampling_pass st w = (Py.Return st', w') ->
       exists c' cn' ids',
         Grid.sized (grid st') (Z.to_nat (Z.max (Z.of_nat n) target))
           (c ++ c') (cn ++ cn') (ids ++ ids')).
Proof.
  intros Hs Hi. exists (target_size st n).
  split; [exact (@n_grid_new_run st n c cn ids w Hs)|].
  pose proof (@sampling_pass_run st n c cn ids w Hs) as Hrun.
  cbv zeta in Hrun.
  split; [|split; [|split]].
  - intros Ha He.
    assert (T : target_size st n = Z.of_nat n)
      by (unfold target_size; now rewrite Ha, He).
    rewrite T, Ha in Hrun. cbn [negb] in Hrun.
    split; [exact T|]. split.
    + intros E. rewrite Hrun, E, Z.ltb_irrefl. reflexivity.
    + intros Hlt. rewrite Hrun.
      destruct (Z.ltb_spec (i_grid st) (Z.of_nat n)) as [_|H]; [|lia].
      erewrite Grid.mbind_return
        by (apply (@Grid.extend_same amb problem (grid st) (Z.of_nat n)
                     (inject_Z (Z.of_nat n)) None w (Grid.sized_n_grid Hs));
            apply Qle_refl).
      now rewrite set_grid_same.
  - intros Ha He Hf. unfold target_size. now rewrite Ha, He, Hf.
  - intros Ha. unfold target_size. rewrite Ha, andb_false_r. reflexivity.
  - intros st' w' H. rewrite Hrun in H.
    set (target := target_size st n) in *.
    set (st1 := if negb (adaptive_sampling opt)
                then set_add_samples false st else st) in *.
    assert (G : grid st1 = grid st)
      by (unfold st1; now destruct (negb (adaptive_sampling opt))).
    destruct (Z.ltb_spec (i_grid st) target) as [Hlt|Hge].
    + destruct (Z_le_gt_dec target (Z.of_nat n)) as [Hle|Hgt].
      * erewrite Grid.mbind_return in H
          by (apply (@Grid.extend_same amb problem (grid st) (Z.of_nat n)
                       (inject_Z target) None w (Grid.sized_n_grid Hs));
              rewrite <- Zle_Qle; exact Hle).
        apply evaluate_new_points_grid in H. cbn [set_grid grid] in H.
        exists [], [], []. rewrite !app_nil_r, H.
        replace (Z.to_nat (Z.max (Z.of_nat n) target)) with n by lia.
        exact Hs.
      * destruct (@Grid.extend_random_grid_sized amb problem (grid st) n c cn
                    ids target w Hs Hgt)
          as (g & w1 & c' & cn' & ids' & Hext & Hsz).
        erewrite Grid.mbind_return in H by exact Hext.
        apply evaluate_new_points_grid in H. cbn [set_grid grid] in H.
        exists c', cn', ids'. rewrite H.
        replace (Z.to_nat (Z.max (Z.of_nat n) target)) with (Z.to_nat target)
          by lia.
        exact Hsz.
    + injection H as <- _. rewrite G.
      exists [], [], []. rewrite !app_nil_r.
      replace (Z.to_nat (Z.max (Z.of_nat n) target)) with n by lia.
      exact Hs.
Qed.

End AdaptiveSampling.

(** *** A concrete pass *)

(** Exact sums and products stand in for the rounded ones, the model of
    the example returns the first coordinate of a point, and the grid is
    the one of two points built above; [i_grid] is zero, as in the first
    pass of a run. *)
Definition example_options : options :=
  {| adaptive_sampling := true; matrix_ratio := 2;
     gradient_enhanced := false; gradient_calculation := "standard_forward" |}.

Definition example_com_run (coords coords_norm : np.ndarray2)
  : M (amb := example_ambient) (list Q) :=
  ret (map (fun row => hd 0%Q row) coords).

Definition example_vars : vars (amb := example_ambient) Q unit :=
  {| i_grid := 0; extended_basis := true; first_iter := true;
     add_samples := true; grid := Grid.example_grid; n_basis := 1;
     res := None; grad_res_3D := None |}.

Lemma sampling_target_witness :
  @n_grid_new example_ambient Qplus Qmult Q unit example_options
    example_vars Grid.example_world
  = (Py.Return 2%Z, Grid.example_world) /\
  @sampling_pass example_ambient Qplus Qmult Q unit (fun _ : unit => 0%Z)
    [Grid.beta_unit; Grid.normal_std] example_options example_com_run
    example_vars Grid.example_world
  = @evaluate_new_points example_ambient Q unit (fun _ : unit => 0%Z)
      example_options example_com_run example_vars Grid.example_world.
Proof.
  destruct (@sampling_target example_ambient Qplus Qmult Q unit
              (fun _ : unit => 0%Z) [Grid.beta_unit; Grid.normal_std]
              example_options example_com_run example_vars 2
              (match Grid._coords Grid.example_grid with
               | Some c => c | None => [] end)
              (match Grid._coords_norm Grid.example_grid with
               | Some c => c | None => [] end)
              (match Grid.coords_id Grid.example_grid with
               | Some c => c | None => [] end)
              Grid.example_world) as (target & Hrun & H1 & _).
  - constructor; vm_compute; reflexivity.
  - cbn. lia.
  - destruct (H1 eq_refl eq_refl) as (T & _ & E).
    split; [subst target; exact Hrun|]. apply E. cbn. lia.
Defined.

End Algorithm.

(** ** Algorithm.py: the constructors of Algorithm and RegAdaptive *)

Module Init.

(** The exceptions the constructors raise or trigger. *)
Inductive exc : Type :=
| KeyError (key : string)
| AssertionError (msg : string)
| AttributeError (name : string)
| TypeError (msg : string)
| OSError (msg : string).

Inductive outcome (A : Type) : Type :=
| Return (a : A)
| Raise (e : exc).

Arguments Return {A} a.
Arguments Raise {A} e.

Definition bind {A B} (c : outcome A) (k : A -> outcome B) : outcome B :=
  match c with
  | Return a => k a
  | Raise e => Raise e
  end.

Declare Scope init_scope.
Delimit Scope init_scope with init.
Notation "x <- c ;; k" := (bind c (fun x => k))
  (at level 61, c at next level, right associativity) : init_scope.

(** The values of an options dictionary; [VPath] is an [os.PathLike]
    object, with the path it stands for. *)
Unset Elimination Schemes.
Inductive value : Type :=
| VNone
| VBool (b : bool)
| VInt (z : Z)
| VFloat (q : Q)
| VStr (s : string)
| VBytes (b : string)
| VPath (p : string)
| VDict (items : list (string * value)).
Set Elimination Schemes.

(** A Python [dict] with string keys, in insertion order. *)
Definition dict : Type := list (string * value).

Fixpoint lookup (d : dict) (k : string) : option value :=
  match d with
  | [] => None
  | (k', v) :: d' => if String.eqb k' k then Some v else lookup d' k
  end.

(** [k in d.keys()] *)
Definition contains (d : dict) (k : string) : bool :=
  match lookup d k with
  | Some _ => true
  | None => false
  end.

(** [d[k]] *)
Definition getitem (d : dict) (k : string) : outcome value :=
  match lookup d k with
  | Some v => Return v
  | None => Raise (KeyError k)
  end.

(** [d[k] = v]: a key that is present keeps its place. *)
Fixpoint setitem (d : dict) (k : string) (v : value) : dict :=
  match d with
  | [] => [(k, v)]
  | (k', v') :: d' =>
      if String.eqb k' k then (k', v) :: d' else (k', v') :: setitem d' k v
  end.

(** [if k not in d.keys(): d[k] = v] *)
Definition default (k : string) (v : value) (d : dict) : dict :=
  if negb (contains d k) then setitem d k v else d.

(** [v == s] for a string literal [s] *)
Definition eq_str (v : value) (s : string) : bool :=
  match v with
  | VStr t => String.eqb t s
  | _ => false
  end.

(** [v is dict()]: identity with a dictionary made on the spot, which no
    object that exists already has. *)
Definition is_new_dict (v : value) : bool := false.

(** What [os.path.split] and [os.path.splitext] take: [str], [bytes] or
    [os.PathLike]. *)
Definition path_like (v : value) : bool :=
  match v with
  | VStr _ | VBytes _ | VPath _ => true
  | _ => false
  end.

(** Python's truth value, as [if v:] reads it. *)
Definition truth (v : value) : bool :=
  match v with
  | VNone => false
  | VBool b => b
  | VInt z => negb (z =? 0)%Z
  | VFloat q => negb (Qeq_bool q 0)
  | VStr s => negb (String.eqb s EmptyString)
  | VBytes b => negb (String.eqb b EmptyString)
  | VPath _ => true
  | VDict items => match items with [] => false | _ => true end
  end.

(** The object after construction: [self.options] (the dictionary the
    caller passed, which the constructor fills in place) and the attribute
    [n_cpu], which is set only in one branch. *)
Record algorithm : Type := {
  options : dict;
  n_cpu : option value
}.

Section Constructors.

(** The file system, and the functions of [os] and [os.path] the
    constructors and the head of [run] call. *)
Variable fs : Type.
(** [os.path.split(p)[0]] *)
Variable dirname : string -> string.
Variable path_exists : fs -> string -> bool.
Variable makedirs : string -> fs -> outcome fs.
(** [os.path.splitext(p)[0]] *)
Variable splitext_root : string -> string.
Variable remove : string -> fs -> outcome fs.

(** The part of [Algorithm.__init__] that can fail: the results folder.
    A path given as [bytes] or as an [os.PathLike] object is taken like
    the string it stands for. *)
Definition Algorithm_init (options : dict) (f : fs) : outcome fs :=
  (fn <- getitem options "fn_results" ;;
   match fn with
   | VStr s | VBytes s | VPath s =>
       if negb (path_exists f (dirname s)) then makedirs (dirname s) f
       else Return f
   | _ => Raise (TypeError "expected str, bytes or os.PathLike object")
   end)%init.


(** The solver block of [RegAdaptive.__init__]: the solver is required,
    and its settings are checked or replaced. *)
Definition solver_settings (o : dict) : outcome dict :=
  (if negb (contains o "solver") then
     Raise (AssertionError
              "Please specify 'Moore-Penrose' or 'OMP' as solver for adaptive algorithm.")
   else
   solver <- getitem o "solver" ;;
   let o := if eq_str solver "Moore-Penrose" then setitem o "settings" VNone
            else o in
   solver <- getitem o "solver" ;;
   if eq_str solver "OMP" && negb (contains o "settings") then
     Raise (AssertionError
              "Please specify correct solver settings for OMP in 'settings'")
   else
   solver <- getitem o "solver" ;;
   if eq_str solver "LarsLasso" then
     settings <- getitem o "settings" ;;
     if is_new_dict settings then
       match settings with
       | VDict items =>
           Return (setitem o "settings"
                     (VDict (default "alpha" (VFloat 1e-5) items)))
       | _ => Raise (AttributeError "keys")
       end
     else
       Return (setitem o "settings" (VDict [("alpha"%string, VFloat 1e-5)]))
   else Return o)%init.

(** [RegAdaptive.__init__(problem, options)] *)
Definition RegAdaptive_init (problem_dim : Z) (options : dict) (f : fs)
  : outcome (algorithm * fs) :=
  (f <- Algorithm_init options f ;;
   let o := options in
   let o := default "order_start" (VInt 0) o in
   let o := default "order_end" (VInt 10) o in
   let o := default "interaction_order" (VInt problem_dim) o in
   let o := default "fn_results" VNone o in
   let o := default "eps" (VFloat 1e-3) o in
   let o := default "verbose" (VBool true) o in
   let o := default "seed" VNone o in
   let n_cpu := if contains o "n_cpu" then lookup o "n_cpu" else None in
   let o := default "matrix_ratio" (VInt 2) o in
   o <- solver_settings o ;;
   let o := default "print_func_time" (VBool false) o in
   let o := default "order_max_norm" (VFloat 1) o in
   let o := default "error_norm" (VStr "relative") o in
   let o := default "error_type" (VStr "loocv") o in
   let o := default "adaptive_sampling" (VBool true) o in
   let o := default "n_samples_validation" (VFloat 1e4) o in
   let o := default "gradient_enhanced" (VBool false) o in
   let o := default "gradient_calculation" (VStr "standard_forward") o in
   let o := default "GPU" (VBool false) o in
   Return ({| options := o; n_cpu := n_cpu |}, f))%init.

(** [x + 1.0] *)
Definition plus_one (v : value) : outcome Q :=
  match v with
  | VInt z => Return (inject_Z z + 1.0)%Q
  | VFloat q => Return (q + 1.0)%Q
  | VBool b => Return ((if b then 1 else 0) + 1.0)%Q
  | _ => Raise (TypeError "unsupported operand type(s) for +")
  end.

(** The head of [RegAdaptive.run], up to [Computation(n_cpu=self.n_cpu)]:
    the values it has read when it gets there.  For a path given as
    [bytes] the root [os.path.splitext] returns is [bytes] too, and
    [fn_results + ".hdf5"] raises. *)
Definition run_head (self : algorithm) (f : fs)
  : outcome (Q * value * value * fs) :=
  (fn <- getitem (options self) "fn_results" ;;
   match fn with
   | VBytes _ => Raise (TypeError "can't concat str to bytes")
   | VStr s | VPath s =>
       let fn_results := splitext_root s in
       f <- (if path_exists f (fn_results ++ ".hdf5")
             then remove (fn_results ++ ".hdf5") f
             else Return f) ;;
       e <- getitem (options self) "eps" ;;
       eps <- plus_one e ;;
       order <- getitem (options self) "order_start" ;;
       match n_cpu self with
       | Some n => Return (eps, order, n, f)
       | None => Raise (AttributeError "n_cpu")
       end
   | _ => Raise (TypeError "expected str, bytes or os.PathLike object")
   end)%init.

(** The defaults of [RegAdaptive.__init__], in the order the code sets
    them: those before the solver block and those after it. *)
Definition defaults_head (problem_dim : Z) : dict :=
  [("order_start", VInt 0); ("order_end", VInt 10);
   ("interaction_order", VInt problem_dim); ("fn_results", VNone);
   ("eps", VFloat 1e-3); ("verbose", VBool true); ("seed", VNone);
   ("matrix_ratio", VInt 2)]%string.

Definition defaults_tail : dict :=
  [("print_func_time", VBool false); ("order_max_norm", VFloat 1);
   ("error_norm", VStr "relative"); ("error_type", VStr "loocv");
   ("adaptive_sampling", VBool true); ("n_samples_validation", VFloat 1e4);
   ("gradient_enhanced", VBool false);
   ("gradient_calculation", VStr "standard_forward");
   ("GPU", VBool false)]%string.

Definition defaults (problem_dim : Z) : dict :=
  defaults_head problem_dim ++ defaults_tail.

(** A run of [if k not in d.keys(): d[k] = v] statements. *)
Definition fill (defs : dict) (o : dict) : dict :=
  fold_left (fun o kv => default (fst kv) (snd kv) o) defs o.

(** *** Facts about dictionaries *)

Lemma lookup_setitem (d : dict) k v k' :
  lookup (setitem d k v) k'
  = if String.eqb k k' then Some v else lookup d k'.
Proof.
  induction d as [|[k0 v0] d IH]; cbn [setitem lookup].
  - reflexivity.
  - destruct (String.eqb_spec k0 k) as [->|Hne]; cbn [lookup].
    + destruct (String.eqb k k'); reflexivity.
    + destruct (String.eqb_spec k0 k') as [->|Hne'].
      * destruct (String.eqb_spec k k') as [->|_]; [congruence | reflexivity].
      * exact IH.
Qed.

Lemma lookup_default (d : dict) k v k' :
  lookup (default k v d) k'
  = if String.eqb k k'
    then match lookup d k with Some x => Some x | None => Some v end
    else lookup d k'.
Proof.
  unfold default, contains.
  destruct (lookup d k) as [x|] eqn:E; cbn [negb].
  - destruct (String.eqb_spec k k') as [<-|_]; [exact E | reflexivity].
  - apply lookup_setitem.
Qed.

Lemma lookup_setitem_other (d : dict) k v k' :
  String.eqb k k' = false -> lookup (setitem d k v) k' = lookup d k'.
Proof. intros E. now rewrite lookup_setitem, E. Qed.

Lemma lookup_setitem_same (d : dict) k v :
  lookup (setitem d k v) k = Some v.
Proof. now rewrite lookup_setitem, String.eqb_refl. Qed.

Lemma lookup_default_other (d : dict) k v k' :
  String.eqb k k' = false -> lookup (default k v d) k' = lookup d k'.
Proof. intros E. now rewrite lookup_default, E. Qed.

Lemma contains_lookup (d : dict) k :
  (if contains d k then lookup d k else None) = lookup d k.
Proof. unfold contains. now destruct (lookup d k). Qed.

Lemma lookup_app (d1 d2 : dict) k :
  lookup (d1 ++ d2) k
  = match lookup d1 k with Some x => Some x | None => lookup d2 k end.
Proof.
  induction d1 as [|[k0 v0] d1 IH]; cbn [app lookup]; [reflexivity|].
  now destruct (String.eqb k0 k).
Qed.

(** A key the caller gave keeps its value; a missing one gets the first
    default listed for it. *)
Lemma lookup_fill (defs : dict) : forall (o : dict) k,
  lookup (fill defs o) k
  = match lookup o k with Some x => Some x | None => lookup defs k end.
Proof.
  unfold fill.
  induction defs as [|[k0 v0] defs IH]; intros o k; cbn [fold_left fst snd].
  - now destruct (lookup o k).
  - rewrite IH, lookup_default. cbn [lookup].
    destruct (String.eqb_spec k0 k) as [->|_].
    + now destruct (lookup o k).
    + reflexivity.
Qed.

(** The constructor in three stages: the defaults before the solver
    block, the solver block, the defaults after it. *)
Lemma RegAdaptive_init_stages dim opts f :
  RegAdaptive_init dim opts f
  = (f <- Algorithm_init opts f ;;
     o <- solver_settings (fill (defaults_head dim) opts) ;;
     Return ({| options := fill defaults_tail o;
                n_cpu := lookup opts "n_cpu" |}, f))%init.
Proof.
  unfold RegAdaptive_init.
  destruct (Algorithm_init opts f) as [f0|e]; [|reflexivity].
  cbn [bind]. cbv zeta. rewrite contains_lookup.
  rewrite !lookup_default_other by reflexivity.
  reflexivity.
Qed.

(** The solver block touches no key but ["settings"]. *)
Lemma solver_settings_lookup (o o' : dict) k :
  solver_settings o = Return o' ->
  String.eqb "settings" k = false ->
  lookup o' k = lookup o k.
Proof.
  intros H Hk. unfold solver_settings, getitem, contains in H.
  destruct (lookup o "solver") as [sv|] eqn:Hs; [|discriminate H].
  cbn [negb bind] in H.
  destruct (eq_str sv "Moore-Penrose") eqn:E1.
  - rewrite !lookup_setitem_other, !lookup_setitem_same, !Hs in H
      by reflexivity.
    cbn [negb andb bind] in H. rewrite andb_false_r in H.
    destruct (eq_str sv "LarsLasso"); cbn [is_new_dict] in H;
      injection H as <-; rewrite ?lookup_setitem_other by exact Hk;
      reflexivity.
  - rewrite !Hs in H. cbn [bind] in H.
    destruct (eq_str sv "OMP" && negb _); [discriminate H|].
    destruct (eq_str sv "LarsLasso").
    + destruct (lookup o "settings"); cbn [bind is_new_dict] in H;
        [|discriminate H].
      injection H as <-. now rewrite lookup_setitem_other by exact Hk.
    + now injection H as <-.
Qed.

(** What the solver block does to ["settings"]. *)
Lemma solver_settings_moore_penrose (o : dict) :
  lookup o "solver" = Some (VStr "Moore-Penrose") ->
  solver_settings o = Return (setitem o "settings" VNone).
Proof.
  intros Hs. unfold solver_settings, getitem, contains.
  rewrite Hs. cbn [negb bind].
  change (eq_str (VStr "Moore-Penrose") "Moore-Penrose") with true.
  cbv iota. rewrite !lookup_setitem_other, !Hs by reflexivity.
  reflexivity.
Qed.

Lemma solver_settings_lars_lasso (o : dict) s :
  lookup o "solver" = Some (VStr "LarsLasso") ->
  lookup o "settings" = Some s ->
  solver_settings o
  = Return (setitem o "settings" (VDict [("alpha"%string, VFloat 1e-5)])).
Proof.
  intros Hs Hset. unfold solver_settings, getitem, contains.
  rewrite Hs. cbn [negb bind].
  change (eq_str (VStr "LarsLasso") "Moore-Penrose") with false.
  cbv iota. rewrite !Hs, Hset. reflexivity.
Qed.

(** The defaults before the solver block leave the solver and its
    settings as the caller gave them. *)
Lemma lookup_head_solver dim (opts : dict) :
  lookup (fill (defaults_head dim) opts) "solver" = lookup opts "solver".
Proof. rewrite lookup_fill. now destruct (lookup opts "solver"). Qed.

Lemma lookup_head_settings dim (opts : dict) :
  lookup (fill (defaults_head dim) opts) "settings" = lookup opts "settings".
Proof. rewrite lookup_fill. now destruct (lookup opts "settings"). Qed.

Lemma solver_settings_rejects (o : dict) :
  (lookup o "solver" = None ->
   solver_settings o
   = Raise (AssertionError
              "Please specify 'Moore-Penrose' or 'OMP' as solver for adaptive algorithm.")) /\
  (lookup o "settings" = None ->
   (lookup o "solver" = Some (VStr "OMP") ->
    solver_settings o
    = Raise (AssertionError
               "Please specify correct solver settings for OMP in 'settings'")) /\
   (lookup o "solver" = Some (VStr "LarsLasso") ->
    solver_settings o = Raise (KeyError "settings"))).
Proof.
  unfold solver_settings, getitem, contains.
  split; [|intros Hset; split]; intros Hs; rewrite Hs; cbn [negb bind].
  - reflexivity.
  - change (eq_str (VStr "OMP") "Moore-Penrose") with false.
    cbv iota. rewrite !Hs, Hset. reflexivity.
  - change (eq_str (VStr "LarsLasso") "Moore-Penrose") with false.
    cbv iota. rewrite !Hs, Hset. reflexivity.
Qed.

(** X17. [RegAdaptive.__init__] cannot be called without a path under
    ["fn_results"]: the base constructor reads the key before the default
    for it is set, so a missing key raises [KeyError] and any value that is
    no [str], [bytes] or [os.PathLike] object (the default [None]
    included) raises [TypeError]; the file system is not touched. *)
Theorem RegAdaptive_init_needs_fn_results dim opts f :
  (forall v, lookup opts "fn_results" = Some v -> path_like v = false) ->
  RegAdaptive_init dim opts f
  = Raise (match lookup opts "fn_results" with
           | None => KeyError "fn_results"
           | Some _ => TypeError "expected str, bytes or os.PathLike object"
           end).
Proof.
  intros Hv. unfold RegAdaptive_init, Algorithm_init, getitem.
  destruct (lookup opts "fn_results") as [v|]; [|reflexivity].
  cbn [bind]. specialize (Hv v eq_refl).
  destruct v; try reflexivity; discriminate Hv.
Qed.

(** X18. Once the results folder is there, [RegAdaptive.__init__] raises
    [AssertionError] without a solver, [AssertionError] for the solver
    ["OMP"] without settings, and [KeyError] for the solver ["LarsLasso"]
    without settings. *)
Theorem RegAdaptive_init_rejects dim opts f f' :
  Algorithm_init opts f = Return f' ->
  (lookup opts "solver" = None ->
   RegAdaptive_init dim opts f
   = Raise (AssertionError
              "Please specify 'Moore-Penrose' or 'OMP' as solver for adaptive algorithm.")) /\
  (lookup opts "settings" = None ->
   (lookup opts "solver" = Some (VStr "OMP") ->
    RegAdaptive_init dim opts f
    = Raise (AssertionError
               "Please specify correct solver settings for OMP in 'settings'")) /\
   (lookup opts "solver" = Some (VStr "LarsLasso") ->
    RegAdaptive_init dim opts f = Raise (KeyError "settings"))).
Proof.
  intros Hinit. rewrite RegAdaptive_init_stages, Hinit. cbn [bind].
  destruct (solver_settings_rejects (fill (defaults_head dim) opts))
    as [H1 H2].
  rewrite lookup_head_solver in H1, H2.
  rewrite lookup_head_settings in H2.
  split.
  - intros Hs. now rewrite (H1 Hs).
  - intros Hset. destruct (H2 Hset) as [H3 H4].
    split; intros Hs; [now rewrite (H3 Hs) | now rewrite (H4 Hs)].
Qed.

(** X19. The settings the caller passes are not used for two solvers: with
    ["Moore-Penrose"] the constructor returns with ["settings"] set to
    [None], and with ["LarsLasso"] and any settings given it returns with
    ["settings"] replaced by [{"alpha": 1e-5}], because [is dict()] is
    never true. *)
Theorem RegAdaptive_init_replaces_settings dim opts f f' sv :
  Algorithm_init opts f = Return f' ->
  lookup opts "solver" = Some (VStr sv) ->
  sv = "Moore-Penrose"%string \/
  (sv = "LarsLasso"%string /\ lookup opts "settings" <> None) ->
  exists alg,
    RegAdaptive_init dim opts f = Return (alg, f') /\
    lookup (options alg) "settings"
    = Some (if String.eqb sv "Moore-Penrose" then VNone
            else VDict [("alpha"%string, VFloat 1e-5)]).
Proof.
  intros Hinit Hs Hsv. rewrite RegAdaptive_init_stages, Hinit. cbn [bind].
  destruct Hsv as [->|[-> Hset]].
  - rewrite solver_settings_moore_penrose
      by (now rewrite lookup_head_solver).
    cbn [bind]. eexists. split; [reflexivity|]. cbn [options].
    now rewrite lookup_fill, lookup_setitem_same.
  - destruct (lookup opts "settings") as [s|] eqn:Es; [|now destruct Hset].
    rewrite (@solver_settings_lars_lasso _ s)
      by (now rewrite ?lookup_head_solver, ?lookup_head_settings).
    cbn [bind]. eexists. split; [reflexivity|]. cbn [options].
    now rewrite lookup_fill, lookup_setitem_same.
Qed.

(** X20. When [RegAdaptive.__init__] returns, every option but
    ["settings"] has the value the caller gave it, or else the default the
    code lists for it, or else is missing; the attribute [n_cpu] is set
    exactly when the caller gave ["n_cpu"]. *)
Theorem RegAdaptive_init_options dim opts f alg f' :
  RegAdaptive_init dim opts f = Return (alg, f') ->
  n_cpu alg = lookup opts "n_cpu" /\
  forall k, k <> "settings"%string ->
    lookup (options alg) k
    = match lookup opts k with
      | Some x => Some x
      | None => lookup (defaults dim) k
      end.
Proof.
  intros H. rewrite RegAdaptive_init_stages in H.
  destruct (Algorithm_init opts f) as [f0|e]; [|discriminate H].
  cbn [bind] in H.
  destruct (solver_settings (fill (defaults_head dim) opts)) as [o|e] eqn:E;
    [|discriminate H].
  cbn [bind] in H.
  replace alg with {| options := fill defaults_tail o;
                      n_cpu := lookup opts "n_cpu" |} by congruence.
  cbn [options n_cpu].
  split; [reflexivity|]. intros k Hk.
  assert (Hk' : String.eqb "settings" k = false).
  { apply String.eqb_neq. congruence. }
  rewrite lookup_fill, (@solver_settings_lookup _ _ _ E Hk'), lookup_fill.
  unfold defaults. rewrite lookup_app.
  now destruct (lookup opts k).
Qed.

(** X21. Without ["n_cpu"] in the options the constructed object has no
    attribute [n_cpu], and [RegAdaptive.run] never gets past
    [Computation(n_cpu=self.n_cpu)]: it raises whatever the file system
    holds. *)
Theorem run_needs_n_cpu dim opts f alg f' :
  RegAdaptive_init dim opts f = Return (alg, f') ->
  lookup opts "n_cpu" = None ->
  forall f1, exists e, run_head alg f1 = Raise e.
Proof.
  intros H Hn f1.
  assert (Hcpu : n_cpu alg = None).
  { rewrite RegAdaptive_init_stages in H.
    destruct (Algorithm_init opts f) as [f0|e]; [|discriminate H].
    cbn [bind] in H.
    destruct (solver_settings _) as [o|e]; [|discriminate H].
    cbn [bind] in H.
    replace alg with {| options := fill defaults_tail o;
                        n_cpu := lookup opts "n_cpu" |} by congruence.
    exact Hn. }
  unfold run_head, getitem. rewrite Hcpu.
  destruct (lookup (options alg) "fn_results") as [[| | | |s|b|p|]|];
    cbn [bind]; try (eexists; reflexivity).
  - destruct (if path_exists f1 _ then _ else _) as [f2|e]; cbn [bind];
      [|eexists; reflexivity].
    destruct (lookup (options alg) "eps") as [v|]; cbn [bind];
      [|eexists; reflexivity].
    destruct (plus_one v) as [q|e]; cbn [bind]; [|eexists; reflexivity].
    destruct (lookup (options alg) "order_start") as [w|]; cbn [bind];
      eexists; reflexivity.
  - destruct (if path_exists f1 _ then _ else _) as [f2|e]; cbn [bind];
      [|eexists; reflexivity].
    destruct (lookup (options alg) "eps") as [v|]; cbn [bind];
      [|eexists; reflexivity].
    destruct (plus_one v) as [q|e]; cbn [bind]; [|eexists; reflexivity].
    destruct (lookup (options alg) "order_start") as [w|]; cbn [bind];
      eexists; reflexivity.
Qed.

End Constructors.

(** *** RegAdaptive.run up to its first grid *)

Section Run.

Variable fs : Type.
Variable path_exists : fs -> string -> bool.
Variable splitext_root : string -> string.
Variable remove : string -> fs -> outcome fs.

(** What [run] calls before it builds its first grid and the sources do
    not hold: the constructors [Computation] and [Reg],
    [gpc.create_validation_set], [gpc.basis.n_basis],
    [self.problem.parameters_random], and numpy's arithmetic on the values
    of the options ([x * np.ones(dim)], [np.ceil(a * b)], [np.max((a, b))]).
    Each is taken as it comes, and each may raise. *)
Variable gpc : Type.
Variable Computation : value -> fs -> outcome fs.
Variable times_ones : value -> outcome value.
Variable Reg : value -> value -> value -> value -> dict -> fs
               -> outcome (gpc * fs).
(** [isinstance(self.validation, ValidationSet)] *)
Variable validation_is_set : bool.
Variable create_validation_set : gpc -> value -> value -> fs
                                 -> outcome (gpc * fs).
Variable n_basis : gpc -> outcome value.
Variable ceil_times : value -> value -> outcome value.
Variable np_max : value -> value -> outcome value.
Variable parameters_random : outcome value.

(** The parameters of [RandomGrid.__init__(self, problem, parameters)] in
    Grid.py, after [self]. *)
Definition RandomGrid_parameters : list string :=
  ["problem"; "parameters"]%string.

(** Python's binding of a call that passes keyword arguments only to a
    function whose parameters have no defaults: a keyword that is no
    parameter is refused, and then a parameter without argument. *)
Definition bind_keywords (parameters : list string)
  (keywords : list (string * value)) : outcome (list (string * value)) :=
  match filter (fun kv => negb (existsb (String.eqb (fst kv)) parameters))
          keywords with
  | kv :: _ =>
      Raise (TypeError
               ("__init__() got an unexpected keyword argument '"
                ++ fst kv ++ "'"))
  | [] =>
      match filter
              (fun p => negb (existsb (fun kv => String.eqb (fst kv) p)
                                keywords))
              parameters with
      | p :: _ =>
          Raise (TypeError
                   ("__init__() missing a required positional argument: '"
                    ++ p ++ "'"))
      | [] => Return keywords
      end
  end.

(** [run] from [Computation(n_cpu=self.n_cpu)] to the arguments of the
    call that builds the first grid, all evaluated: the values of
    [parameters_random], [n_grid_init] and [options["seed"]]. *)
Definition run_before_first_grid (self : algorithm) (f : fs)
  : outcome (value * value * value * fs) :=
  (h <- run_head path_exists splitext_root remove self f ;;
   let '(eps, order, n, f) := h in
   f <- Computation n f ;;
   order_start <- getitem (options self) "order_start" ;;
   orders <- times_ones order_start ;;
   order_max <- getitem (options self) "order_start" ;;
   order_max_norm <- getitem (options self) "order_max_norm" ;;
   interaction_order <- getitem (options self) "interaction_order" ;;
   gf <- Reg orders order_max order_max_norm interaction_order
           (options self) f ;;
   error_type <- getitem (options self) "error_type" ;;
   gf <- (if eq_str error_type "nrmsd" && negb validation_is_set then
            n_samples <- getitem (options self) "n_samples_validation" ;;
            n_cpu <- getitem (options self) "n_cpu" ;;
            create_validation_set (fst gf) n_samples n_cpu (snd gf)
          else Return gf) ;;
   gradient_enhanced <- getitem (options self) "gradient_enhanced" ;;
   n_grid_init <- (if truth gradient_enhanced then
                     matrix_ratio <- getitem (options self) "matrix_ratio" ;;
                     nb <- n_basis (fst gf) ;;
                     c <- ceil_times matrix_ratio nb ;;
                     n_grid_gradient <- getitem (options self)
                                          "n_grid_gradient" ;;
                     np_max c n_grid_gradient
                   else
                     matrix_ratio <- getitem (options self) "matrix_ratio" ;;
                     nb <- n_basis (fst gf) ;;
                     ceil_times matrix_ratio nb) ;;
   pr <- parameters_random ;;
   seed <- getitem (options self) "seed" ;;
   Return (pr, n_grid_init, seed, snd gf))%init.

(** [run] up to the binding of the arguments of
    [RandomGrid(parameters_random=..., options={"n_grid": n_grid_init,
    "seed": self.options["seed"]})]. *)
Definition run_first_grid (self : algorithm) (f : fs)
  : outcome (list (string * value) * fs) :=
  (a <- run_before_first_grid self f ;;
   let '(pr, n_grid_init, seed, f) := a in
   args <- bind_keywords RandomGrid_parameters
             [("parameters_random"%string, pr);
              ("options"%string,
               VDict [("n_grid"%string, n_grid_init);
                      ("seed"%string, seed)])] ;;
   Return (args, f))%init.

(** The call of [RandomGrid] in [extend_random_grid], with the keywords
    [problem] and [parameters], binds. *)
Lemma RandomGrid_keywords_bind (problem parameters : value) :
  bind_keywords RandomGrid_parameters
    [("problem"%string, problem); ("parameters"%string, parameters)]
  = Return [("problem"%string, problem); ("parameters"%string, parameters)].
Proof. reflexivity. Qed.

(** C1.  [RegAdaptive.run] does not get to its order loop: whatever the
    object, the options and the file system, it raises before.  When all
    that comes before the first grid returns, the call
    [RandomGrid(parameters_random=..., options=...)] raises [TypeError],
    since [RandomGrid.__init__] takes [problem] and [parameters]. *)
Theorem run_raises_at_first_grid (self : algorithm) (f : fs) :
  run_first_grid self f =
  match run_before_first_grid self f with
  | Return _ =>
      Raise (TypeError
               "__init__() got an unexpected keyword argument 'parameters_random'")
  | Raise e => Raise e
  end.
Proof.
  unfold run_first_grid.
  destruct (run_before_first_grid self f) as [[[[pr n_grid_init] seed] f']|e];
    reflexivity.
Qed.

End Run.

(** A file system in which every path exists and nothing fails. *)
Definition example_fs : Type := unit.
Definition example_dirname (p : string) : string := p.
Definition example_path_exists (f : example_fs) (p : string) : bool := true.
Definition example_makedirs (p : string) (f : example_fs)
  : outcome example_fs := Return f.
Definition example_splitext_root (p : string) : string := p.
Definition example_remove (p : string) (f : example_fs)
  : outcome example_fs := Return f.

Definition example_init : Z -> dict -> example_fs
                          -> outcome (algorithm * example_fs) :=
  @RegAdaptive_init example_fs example_dirname example_path_exists
    example_makedirs.

Definition example_init_options (solver : string) : dict :=
  [("fn_results", VStr "out/gpc"); ("solver", VStr solver);
   ("settings", VDict [("alpha", VFloat 0.1)]);
   ("eps", VFloat 0.01)]%string.

Lemma RegAdaptive_init_needs_fn_results_witness :
  example_init 2 [("solver"%string, VStr "Moore-Penrose")] tt
  = Raise (KeyError "fn_results") /\
  example_init 2 [("fn_results"%string, VNone)] tt
  = Raise (TypeError "expected str, bytes or os.PathLike object").
Proof.
  split.
  - apply (@RegAdaptive_init_needs_fn_results example_fs example_dirname
             example_path_exists example_makedirs 2
             [("solver"%string, VStr "Moore-Penrose")] tt).
    intros v H. discriminate H.
  - apply (@RegAdaptive_init_needs_fn_results example_fs example_dirname
             example_path_exists example_makedirs 2
             [("fn_results"%string, VNone)] tt).
    intros v H. cbn in H. injection H as <-. reflexivity.
Defined.

Lemma RegAdaptive_init_rejects_witness :
  example_init 2 [("fn_results"%string, VStr "out/gpc")] tt
  = Raise (AssertionError
             "Please specify 'Moore-Penrose' or 'OMP' as solver for adaptive algorithm.") /\
  example_init 2 [("fn_results"%string, VStr "out/gpc");
                  ("solver"%string, VStr "OMP")] tt
  = Raise (AssertionError
             "Please specify correct solver settings for OMP in 'settings'") /\
  example_init 2 [("fn_results"%string, VStr "out/gpc");
                  ("solver"%string, VStr "LarsLasso")] tt
  = Raise (KeyError "settings").
Proof.
  split; [|split].
  - refine (proj1 (@RegAdaptive_init_rejects example_fs example_dirname
                     example_path_exists example_makedirs 2
                     [("fn_results"%string, VStr "out/gpc")] tt tt _) _);
      reflexivity.
  - refine (proj1 (proj2 (@RegAdaptive_init_rejects example_fs
                            example_dirname example_path_exists
                            example_makedirs 2
                            [("fn_results"%string, VStr "out/gpc");
                             ("solver"%string, VStr "OMP")] tt tt _) _) _);
      reflexivity.
  - refine (proj2 (proj2 (@RegAdaptive_init_rejects example_fs
                            example_dirname example_path_exists
                            example_makedirs 2
                            [("fn_results"%string, VStr "out/gpc");
                             ("solver"%string, VStr "LarsLasso")] tt tt _) _)
              _);
      reflexivity.
Defined.

Lemma RegAdaptive_init_replaces_settings_witness :
  (exists alg,
     example_init 2 (example_init_options "LarsLasso") tt = Return (alg, tt) /\
     lookup (options alg) "settings"
     = Some (VDict [("alpha"%string, VFloat 1e-5)])) /\
  (exists alg,
     example_init 2 (example_init_options "Moore-Penrose") tt = Return (alg, tt) /\
     lookup (options alg) "settings" = Some VNone).
Proof.
  split.
  - apply (@RegAdaptive_init_replaces_settings example_fs example_dirname
             example_path_exists example_makedirs 2
             (example_init_options "LarsLasso") tt tt "LarsLasso");
      [reflexivity | reflexivity |].
    right. split; [reflexivity | discriminate].
  - apply (@RegAdaptive_init_replaces_settings example_fs example_dirname
             example_path_exists example_makedirs 2
             (example_init_options "Moore-Penrose") tt tt "Moore-Penrose");
      [reflexivity | reflexivity |].
    left. reflexivity.
Defined.

(** The object the constructor returns for the example options with the
    solver ["OMP"]. *)
Definition example_algorithm : algorithm :=
  {| options :=
       fill defaults_tail
         (fill (defaults_head 2) (example_init_options "OMP"));
     n_cpu := None |}.

Lemma example_init_value :
  example_init 2 (example_init_options "OMP") tt = Return (example_algorithm, tt).
Proof. reflexivity. Qed.

Lemma RegAdaptive_init_options_witness :
  example_init 2 (example_init_options "OMP") tt = Return (example_algorithm, tt) /\
  n_cpu example_algorithm = None /\
  lookup (options example_algorithm) "eps" = Some (VFloat 0.01) /\
  lookup (options example_algorithm) "order_end" = Some (VInt 10) /\
  lookup (options example_algorithm) "n_cpu" = None.
Proof.
  split; [exact example_init_value|].
  pose proof (@RegAdaptive_init_options example_fs example_dirname
                example_path_exists example_makedirs 2
                (example_init_options "OMP") tt example_algorithm tt
                example_init_value) as [Hcpu Hk].
  split; [exact Hcpu|].
  split; [|split].
  - apply (Hk "eps"%string). discriminate.
  - apply (Hk "order_end"%string). discriminate.
  - apply (Hk "n_cpu"%string). discriminate.
Defined.

Lemma run_needs_n_cpu_witness :
  example_init 2 (example_init_options "OMP") tt = Return (example_algorithm, tt) /\
  lookup (example_init_options "OMP") "n_cpu" = None /\
  exists e,
    @run_head example_fs example_path_exists example_splitext_root
      example_remove example_algorithm tt = Raise e.
Proof.
  split; [exact example_init_value|]. split; [reflexivity|].
  exact (@run_needs_n_cpu example_fs example_dirname example_path_exists
           example_makedirs example_splitext_root example_remove 2
           (example_init_options "OMP") tt example_algorithm tt
           example_init_value eq_refl tt).
Defined.

(** The example options with one processor: the constructor returns, and
    with collaborators that return [run] gets to the first grid and raises
    there. *)
Definition example_run_options : dict :=
  example_init_options "OMP" ++ [("n_cpu"%string, VInt 1)].

Definition example_run_algorithm : algorithm :=
  {| options := fill defaults_tail (fill (defaults_head 2) example_run_options);
     n_cpu := Some (VInt 1) |}.

Lemma run_raises_example :
  example_init 2 example_run_options tt = Return (example_run_algorithm, tt) /\
  @run_first_grid example_fs example_path_exists example_splitext_root
    example_remove unit (fun _ f => Return f) (fun v => Return v)
    (fun _ _ _ _ _ f => Return (tt, f)) true
    (fun g _ _ f => Return (g, f)) (fun _ => Return (VInt 1))
    (fun a _ => Return a) (fun a _ => Return a) (Return VNone)
    example_run_algorithm tt
  = Raise (TypeError
             "__init__() got an unexpected keyword argument 'parameters_random'").
Proof. split; reflexivity. Qed.

End Init.
